(** * SmartBuilding: the connection and dispatch object of agiverse-js

    A shallow embedding of [src/smart_building/smart_building.ts] and the
    properties of its registry, its message router and its reconnection
    policy.

    The class is single-threaded and event-driven.  Every method and every
    listener is embedded as a computation that runs from one state of the
    object to the next, records the calls it makes to the outside world
    (console, socket, timers, user callbacks) in order, and either completes
    or throws.

    What the embedding takes from the JavaScript language rather than from
    the file itself is kept in [Module JS]: property reads on parsed JSON,
    the conversion of a value to a property key, truthiness, and the
    behaviour of an object literal that is used as a map.  What the host
    provides ([JSON.parse], the printing of numbers) is the class [Host]; the
    constant that lives in [../common/const] is the class [Constants].

    Three things are taken for granted.  User callbacks (action handlers and
    event listeners) are opaque: a call is recorded with its arguments and
    either returns or throws, and what a callback does to the building
    through the references it is handed is not part of the model.  The calls
    to the console, to the socket and to [setTimeout] return.  The order in
    which an object lists its properties is not kept: an object used as a
    map is a finite map. *)

From Stdlib Require Import Strings.String Strings.Ascii Lists.List Bool.Bool.
From Stdlib Require Import Floats.PrimFloat Floats.FloatOps Floats.SpecFloat ZArith.ZArith.
From stdpp Require Import base option list strings pretty gmap fin_maps.

Set Warnings "-register-all".

Local Open Scope string_scope.
Local Open Scope list_scope.

(** ** The fragment of JavaScript the class relies on *)

Module JS.

(** A JavaScript value as [JSON.parse] can produce it, plus [undefined],
    which reading a missing property yields.  Numbers are IEEE binary64; an
    object lists each of its properties once. *)
Inductive value : Type :=
| VUndefined
| VNull
| VBool (b : bool)
| VNumber (n : float)
| VString (s : string)
| VArray (items : list value)
| VObject (props : list (string * value)).

(** What a [throw] carries. *)
Inductive exn : Type :=
| SyntaxError              (* JSON.parse on text that is not JSON *)
| TypeError                (* reading a property of null or undefined, ... *)
| Thrown (v : value).      (* whatever a user callback throws *)

Inductive result (A : Type) : Type :=
| Ok (a : A)
| Err (e : exn).
Arguments Ok {A} a.
Arguments Err {A} e.

(** The outcome of calling an opaque user callback. *)
Inductive outcome : Type :=
| Returns
| Throws (e : exn).

Definition nullish (v : value) : bool :=
  match v with
  | VUndefined | VNull => true
  | _ => false
  end.

Fixpoint assoc (k : string) (props : list (string * value)) : option value :=
  match props with
  | [] => None
  | (k', v) :: rest => if String.eqb k k' then Some v else assoc k rest
  end.

(** [field v k] is the value of [v.k] when [v] is neither null nor
    undefined, for a name [k] that no built-in prototype defines (every
    name the router reads: type, data, action, playerID, playerName,
    actionID, payload, payment).  A parsed object answers with its own
    property; arrays, strings, numbers and booleans have no such
    property. *)
Definition field (v : value) (k : string) : value :=
  match v with
  | VObject props => default VUndefined (assoc k props)
  | _ => VUndefined
  end.

(** [v.k]: a TypeError on null and undefined. *)
Definition Get (v : value) (k : string) : result value :=
  if nullish v then Err TypeError else Ok (field v k).

(** [v === s] for a string literal [s]. *)
Definition strict_eq_string (v : value) (s : string) : bool :=
  match v with
  | VString s' => String.eqb s' s
  | _ => false
  end.

Definition has_own (k : string) (props : list (string * value)) : bool :=
  match assoc k props with Some _ => true | None => false end.

(** What the JavaScript host provides and this development does not define:
    [JSON.parse] ([None] when it throws its SyntaxError) and the printing of
    a number, [Number.prototype.toString]. *)
Class Host : Type := {
  JSON_parse : string -> option value;
  Number_toString : float -> string
}.

Section ToString.
Context {host : Host}.

(** ToString, as property keys and template literals apply it.  A parsed
    object prints through [Object.prototype.toString] unless it has an
    own (hence non-callable) [toString], in which case the conversion to
    a primitive fails; an array joins its elements with commas, null and
    undefined elements printing as nothing. *)
Fixpoint ToString (v : value) : result string :=
  match v with
  | VUndefined => Ok "undefined"
  | VNull => Ok "null"
  | VBool true => Ok "true"
  | VBool false => Ok "false"
  | VNumber n => Ok (Number_toString n)
  | VString s => Ok s
  | VArray items =>
      (fix join (first : bool) (l : list value) : result string :=
         match l with
         | [] => Ok EmptyString
         | x :: rest =>
             match (if nullish x then Ok EmptyString else ToString x) with
             | Err e => Err e
             | Ok s =>
                 match join false rest with
                 | Err e => Err e
                 | Ok t => Ok ((if first then EmptyString else ",") +:+ s +:+ t)
                 end
             end
         end) true items
  | VObject props =>
      if has_own "toString" props then Err TypeError
      else Ok "[object Object]"
  end.

(** ToPropertyKey: parsed JSON holds no symbol, so this is ToString. *)
Definition ToPropertyKey (v : value) : result string := ToString v.
End ToString.

(** *** An object literal used as a map

    [{}] inherits from [Object.prototype].  Assigning [o[k] = v] creates or
    overwrites an own property, except for the key [__proto__], which
    [Object.prototype] defines as an accessor: the assignment replaces the
    prototype of [o] by the object [v] and creates no property.
    [Object.keys] and [JSON.stringify] see own properties only; a property
    read walks the prototype chain. *)
Record PlainObject (A : Type) : Type := MkObject {
  own : gmap string A;
  proto : option A      (* None: Object.prototype; Some a: a, then Object.prototype *)
}.
Arguments MkObject {A} own proto.
Arguments own {A} _.
Arguments proto {A} _.

Definition empty_object {A : Type} : PlainObject A := MkObject ∅ None.

Definition obj_set {A : Type} (k : string) (v : A) (o : PlainObject A) : PlainObject A :=
  if decide (k = "__proto__") then MkObject (own o) (Some v)
  else MkObject (<[k := v]> (own o)) (proto o).

(** [Object.keys(o)]: the own keys, in an order that is not the host's
    (nothing below depends on it). *)
Definition Object_keys {A : Type} (o : PlainObject A) : list string :=
  (map_to_list (own o)).*1.

(** The data properties of [Object.prototype]; [__proto__], its accessor,
    is treated apart. *)
Definition Object_prototype_names : list string :=
  [ "constructor"; "__defineGetter__"; "__defineSetter__"; "hasOwnProperty";
    "__lookupGetter__"; "__lookupSetter__"; "isPrototypeOf";
    "propertyIsEnumerable"; "toString"; "valueOf"; "toLocaleString" ].

End JS.
Export JS.


(** ** The objects the class handles *)

(** A socket is known by its identity; the host hands out a new one at each
    [new WebSocket(uri)]. *)
Definition WebSocket : Type := nat.

(** Modelled from the spec: the ActionContext class of [./context], which is
    not among the sources.  The reply capability is "bound to playerId,
    playerName, actionId, actionName, current connection"; its constructor
    receives these and the building itself, and is taken to store them.  The
    reference to the building is left out, callbacks being opaque. *)
Record ActionContext : Type := MkContext {
  playerId : value;
  playerName : value;
  ctx_ws : option WebSocket;
  actionId : value;
  actionName : value
}.

(** A function supplied by the caller as an action handler: its declared
    parameter count ([Function.prototype.length]) and what a call does. *)
Record JSFunction : Type := MkFunction {
  fn_length : nat;
  fn_call : ActionContext -> list value -> outcome
}.

(** [interface ActionHandler] *)
Record ActionHandler : Type := MkHandler {
  func : JSFunction;
  payloadDescription : string;
  paymentDescription : string
}.

(** A listener attached with [on(event, listener)]. *)
Definition Listener : Type := list value -> outcome.

(** The value of one name in the announcement. *)
Record ActionDescription : Type := MkDescription {
  payload : string;
  payment : string
}.

(** The object handed to [JSON.stringify] before [ws.send]. *)
Record OutMessage : Type := MkOutMessage {
  out_type : string;
  out_actions : PlainObject ActionDescription     (* data.actions *)
}.

(** The callback given to [setTimeout]: [() => this.connect()]. *)
Inductive TimerCallback : Type :=
| CallConnect.

(** The calls the object makes to the outside world. *)
Inductive effect : Type :=
| ConsoleLog (text : string)
| ConsoleWarn (text : string)
| ConsoleError (text : string) (e : exn)
| NewWebSocket (sock : WebSocket) (uri : string)
| Send (sock : WebSocket) (m : OutMessage)          (* sock.send(JSON.stringify(m)) *)
| Close (sock : WebSocket)                          (* sock.close() *)
| Emit (event : string) (args : list value)         (* this.emit(event, ...args) *)
| Invoke (f : JSFunction) (ctx : ActionContext) (args : list value)
| SetTimeout (cb : TimerCallback) (delay : float).

(** [class SmartBuilding extends EventEmitter]: the declared fields, and the
    listeners the inherited emitter holds. *)
Record SmartBuilding : Type := MkBuilding {
  apiKey : string;
  buildingId : float;
  players : value;
  buildingInfo : value;
  wsEndpoint : string;
  ws : option WebSocket;
  reconnectInterval : float;
  actionHandlers : PlainObject ActionHandler;
  listeners : gmap string (list Listener)
}.

Definition set_players (v : value) (b : SmartBuilding) : SmartBuilding :=
  MkBuilding (apiKey b) (buildingId b) v (buildingInfo b) (wsEndpoint b) (ws b)
             (reconnectInterval b) (actionHandlers b) (listeners b).

Definition set_buildingInfo (v : value) (b : SmartBuilding) : SmartBuilding :=
  MkBuilding (apiKey b) (buildingId b) (players b) v (wsEndpoint b) (ws b)
             (reconnectInterval b) (actionHandlers b) (listeners b).

Definition set_ws (s : option WebSocket) (b : SmartBuilding) : SmartBuilding :=
  MkBuilding (apiKey b) (buildingId b) (players b) (buildingInfo b) (wsEndpoint b) s
             (reconnectInterval b) (actionHandlers b) (listeners b).

Definition set_actionHandlers (o : PlainObject ActionHandler) (b : SmartBuilding) : SmartBuilding :=
  MkBuilding (apiKey b) (buildingId b) (players b) (buildingInfo b) (wsEndpoint b) (ws b)
             (reconnectInterval b) o (listeners b).

Definition set_listeners (l : gmap string (list Listener)) (b : SmartBuilding) : SmartBuilding :=
  MkBuilding (apiKey b) (buildingId b) (players b) (buildingInfo b) (wsEndpoint b) (ws b)
             (reconnectInterval b) (actionHandlers b) l.

(** ** Computations on the object

    A method body runs from a state of the object, ends in a state, has made
    some calls, and has completed with a value or thrown. *)

Record Run (A : Type) : Type := MkRun {
  completion : result A;
  final : SmartBuilding;
  effects : list effect
}.
Arguments MkRun {A} completion final effects.
Arguments completion {A} _.
Arguments final {A} _.
Arguments effects {A} _.

Definition M (A : Type) : Type := SmartBuilding -> Run A.

Definition ret {A : Type} (a : A) : M A :=
  fun b => MkRun (Ok a) b [].

Definition bind {A B : Type} (m : M A) (k : A -> M B) : M B :=
  fun b =>
    match m b with
    | MkRun (Ok a) b1 t1 =>
        match k a b1 with
        | MkRun r b2 t2 => MkRun r b2 (t1 ++ t2)
        end
    | MkRun (Err e) b1 t1 => MkRun (Err e) b1 t1
    end.

Notation "'let*' x ':=' m 'in' k" := (bind m (fun x => k))
  (at level 10, x name, m at level 100, k at level 200).
Notation "m '>>' k" := (bind m (fun _ => k))
  (at level 100, k at level 200, right associativity).

Definition throw {A : Type} (e : exn) : M A :=
  fun b => MkRun (Err e) b [].

Definition lift {A : Type} (r : result A) : M A :=
  match r with
  | Ok a => ret a
  | Err e => throw e
  end.

Definition this : M SmartBuilding :=
  fun b => MkRun (Ok b) b [].

Definition assign (f : SmartBuilding -> SmartBuilding) : M unit :=
  fun b => MkRun (Ok tt) (f b) [].

Definition perform (e : effect) : M unit :=
  fun b => MkRun (Ok tt) b [e].

(** [try { body } catch (error) { handler(error) }] *)
Definition try_catch (body : M unit) (handler : exn -> M unit) : M unit :=
  fun b =>
    match body b with
    | MkRun (Ok u) b1 t1 => MkRun (Ok u) b1 t1
    | MkRun (Err e) b1 t1 =>
        match handler e b1 with
        | MkRun r b2 t2 => MkRun r b2 (t1 ++ t2)
        end
    end.

(** Calling a user callback: the call is made, and throws what the callback
    throws. *)
Definition settle (o : outcome) : M unit :=
  match o with
  | Returns => ret tt
  | Throws e => throw e
  end.

Definition invoke (f : JSFunction) (ctx : ActionContext) (args : list value) : M unit :=
  perform (Invoke f ctx args) >> settle (fn_call f ctx args).

(** *** The inherited EventEmitter

    [on] appends a listener; [emit] calls the listeners of the event in the
    order they were attached, synchronously, and a listener that throws ends
    the emission with its exception. *)

Definition on (event : string) (l : Listener) : M unit :=
  assign (fun b => set_listeners
            (<[event := (default [] (listeners b !! event) ++ [l])%list]> (listeners b)) b).

Fixpoint call_listeners (ls : list Listener) (args : list value) : M unit :=
  match ls with
  | [] => ret tt
  | l :: rest => settle (l args) >> call_listeners rest args
  end.

Definition emit (event : string) (args : list value) : M unit :=
  let* b := this in
  perform (Emit event args) >>
  call_listeners (default [] (listeners b !! event)) args.


(** ** The class *)

(** Modelled from the spec: [DEFAULT_WS_ENDPOINT] of [../common/const], which
    is not among the sources ("default endpoint is a well-known constant").
    It is taken as a parameter. *)
Class Constants : Type := {
  DEFAULT_WS_ENDPOINT : string
}.

(** The argument of the constructor; an optional field that is left out is
    [None]. *)
Module Options.
Record t : Type := Make {
  apiKey : string;
  buildingId : float;
  wsEndpoint : option string;
  reconnectInterval : option float
}.
End Options.

(** The first argument of [action]. *)
Module Config.
Record t : Type := Make {
  action : string;
  payloadDescription : option string;
  paymentDescription : option string
}.
End Config.

(** Truthiness of a string and of a number: the empty string, and 0, -0 and
    NaN, are falsy. *)
Definition truthy_string (s : string) : bool :=
  negb (String.eqb s EmptyString).

Definition truthy_number (n : float) : bool :=
  negb (is_zero n || is_nan n).

(** [x || d] for an optional [x]: [d] when [x] is undefined or falsy. *)
Definition or_else {A : Type} (truthy : A -> bool) (x : option A) (d : A) : A :=
  match x with
  | Some a => if truthy a then a else d
  | None => d
  end.

(** What [this.actionHandlers[key]] evaluates to. *)
Inductive slot : Type :=
| SlotHandler (h : ActionHandler)   (* a registered ActionHandler object *)
| SlotFunction (f : JSFunction)     (* the func of the handler installed as prototype *)
| SlotString (s : string)           (* a description of the handler installed as prototype *)
| SlotBuiltin                       (* Object.prototype, or one of its methods *)
| SlotUndefined.

(** The property read on the registry: own properties first, then the
    properties of the handler object that an assignment to [__proto__] made
    the prototype, then [Object.prototype], whose [__proto__] accessor
    answers with the prototype of the registry. *)
Definition lookup_handler (key : string) (o : PlainObject ActionHandler) : slot :=
  match own o !! key with
  | Some h => SlotHandler h
  | None =>
      match proto o with
      | Some h =>
          if String.eqb key "func" then SlotFunction (func h)
          else if String.eqb key "payloadDescription" then SlotString (payloadDescription h)
          else if String.eqb key "paymentDescription" then SlotString (paymentDescription h)
          else if String.eqb key "__proto__" then SlotHandler h
          else if bool_decide (key ∈ Object_prototype_names) then SlotBuiltin
          else SlotUndefined
      | None =>
          if String.eqb key "__proto__" then SlotBuiltin
          else if bool_decide (key ∈ Object_prototype_names) then SlotBuiltin
          else SlotUndefined
      end
  end.

(** [if (handler)] *)
Definition truthy_slot (s : slot) : bool :=
  match s with
  | SlotHandler _ | SlotFunction _ | SlotBuiltin => true
  | SlotString s => truthy_string s
  | SlotUndefined => false
  end.

(** [handler.func], [None] standing for undefined: only an ActionHandler
    object has the property. *)
Definition slot_func (s : slot) : option JSFunction :=
  match s with
  | SlotHandler h => Some (func h)
  | _ => None
  end.

Section SmartBuilding.
Context {host : Host} {consts : Constants}.

Definition constructor (options : Options.t) : SmartBuilding :=
  {| apiKey := Options.apiKey options;
     buildingId := Options.buildingId options;
     wsEndpoint := or_else truthy_string (Options.wsEndpoint options) DEFAULT_WS_ENDPOINT;
     reconnectInterval := or_else truthy_number (Options.reconnectInterval options) 5000%float;
     players := VArray [];
     buildingInfo := VObject [];
     ws := None;
     actionHandlers := empty_object;
     listeners := ∅ |}.

Definition action (config : Config.t) (handler : JSFunction) : M unit :=
  assign (fun b =>
    set_actionHandlers
      (obj_set (Config.action config)
         {| func := handler;
            payloadDescription := or_else truthy_string (Config.payloadDescription config) EmptyString;
            paymentDescription := or_else truthy_string (Config.paymentDescription config) EmptyString |}
         (actionHandlers b))
      b).

(** [connect], the host having allocated [sock] for [new WebSocket(wsUri)].
    The four listeners it attaches to the socket are [on_open], [on_message],
    [on_close] and [on_error] below. *)
Definition connect (sock : WebSocket) : M unit :=
  let* b := this in
  let wsUri :=
    wsEndpoint b +:+ "?type=building&api-key=" +:+ apiKey b
      +:+ "&building-id=" +:+ Number_toString (buildingId b) in
  perform (NewWebSocket sock wsUri) >>
  assign (set_ws (Some sock)).

Definition run (sock : WebSocket) : M unit :=
  connect sock.

(** The callback of [reduce] in the open listener.  The names it is given
    are own keys of the registry, for which the read yields the handler
    object; the last case is not reached. *)
Definition reduce_step (o : PlainObject ActionHandler)
    (acc : PlainObject ActionDescription) (actionName : string) : PlainObject ActionDescription :=
  match lookup_handler actionName o with
  | SlotHandler handler =>
      obj_set actionName
        {| payload := payloadDescription handler; payment := paymentDescription handler |}
        acc
  | _ => acc
  end.

Definition registerActionsMessage (b : SmartBuilding) : OutMessage :=
  {| out_type := "registerActions";
     out_actions :=
       foldl (reduce_step (actionHandlers b)) empty_object (Object_keys (actionHandlers b)) |}.

(** [this.ws?.send(text)] and [this.ws?.close()] *)
Definition ws_send (m : OutMessage) : M unit :=
  let* b := this in
  match ws b with
  | Some sock => perform (Send sock m)
  | None => ret tt
  end.

Definition ws_close : M unit :=
  let* b := this in
  match ws b with
  | Some sock => perform (Close sock)
  | None => ret tt
  end.

Definition on_open : M unit :=
  perform (ConsoleLog "WebSocket connection established.") >>
  let* b := this in
  ws_send (registerActionsMessage b) >>
  emit "ready" [].

Definition on_close : M unit :=
  perform (ConsoleWarn "Connection closed, attempting to reconnect...") >>
  let* b := this in
  perform (SetTimeout CallConnect (reconnectInterval b)).

Definition on_error (error : exn) : M unit :=
  perform (ConsoleError "WebSocket error:" error) >>
  ws_close.

Definition parse (message : string) : result value :=
  match JSON_parse message with
  | Some v => Ok v
  | None => Err SyntaxError
  end.

(** The body of the [try] block of [handleMessage]. *)
Definition handleMessage_body (message : string) : M unit :=
  let* msg := lift (parse message) in
  let* msgType := lift (Get msg "type") in
  if strict_eq_string msgType "building" then
    let* data := lift (Get msg "data") in
    assign (set_buildingInfo data) >>
    let* b := this in
    emit "buildingInfo" [buildingInfo b]
  else if strict_eq_string msgType "players" then
    let* data := lift (Get msg "data") in
    assign (set_players data) >>
    let* b := this in
    emit "players" [players b]
  else if strict_eq_string msgType "action" then
    let* data := lift (Get msg "data") in
    let* actionName := lift (Get data "action") in
    let* key := lift (ToPropertyKey actionName) in
    let* b := this in
    let handler := lookup_handler key (actionHandlers b) in
    if truthy_slot handler then
      let ctx :=
        MkContext (field data "playerID") (field data "playerName") (ws b)
                  (field data "actionID") actionName in
      let payload := field data "payload" in
      let payment := field data "payment" in
      match slot_func handler with
      | None => throw TypeError      (* the length of undefined *)
      | Some f =>
          if Nat.eqb (fn_length f) 2 then invoke f ctx [payload]
          else if Nat.eqb (fn_length f) 3 then invoke f ctx [payload; payment]
          else
            perform (ConsoleWarn
              ("Handler for action '" +:+ key +:+ "' has an unexpected number of parameters"))
      end
    else
      perform (ConsoleWarn ("No handler for action '" +:+ key +:+ "'"))
  else ret tt.

Definition handleMessage (message : string) : M unit :=
  try_catch (handleMessage_body message)
            (fun error => perform (ConsoleError "Failed to handle message:" error)).

(** The message listener: [this.handleMessage(data.toString())], [text]
    being the frame as a string. *)
Definition on_message (text : string) : M unit :=
  handleMessage text.

(** *** The object over time

    What can happen to a building: the caller registers an action, attaches
    a listener or starts it; a socket that [connect] created reports an
    event; the reconnect timer fires. *)
Inductive event : Type :=
| CallAction (config : Config.t) (handler : JSFunction)
| CallOn (name : string) (l : Listener)
| CallRun (sock : WebSocket)
| SocketOpen (sock : WebSocket)
| SocketMessage (sock : WebSocket) (text : string)
| SocketClose (sock : WebSocket)
| SocketError (sock : WebSocket) (error : exn)
| TimerFires (cb : TimerCallback) (sock : WebSocket).

Definition step (e : event) : M unit :=
  match e with
  | CallAction config handler => action config handler
  | CallOn name l => on name l
  | CallRun sock => run sock
  | SocketOpen _ => on_open
  | SocketMessage _ text => on_message text
  | SocketClose _ => on_close
  | SocketError _ error => on_error error
  | TimerFires CallConnect sock => connect sock
  end.

Fixpoint exec (evs : list event) (b : SmartBuilding) : SmartBuilding :=
  match evs with
  | [] => b
  | e :: rest => exec rest (final (step e b))
  end.

(** The states a building can be in: those some history leads to from a
    construction. *)
Definition reachable (b : SmartBuilding) : Prop :=
  exists options evs, b = exec evs (constructor options).

End SmartBuilding.


(** ** Reading a trace *)

Definition invocations (t : list effect) : list (JSFunction * ActionContext * list value) :=
  omap (fun e => match e with Invoke f ctx args => Some (f, ctx, args) | _ => None end) t.

Definition notifications (t : list effect) : list (string * list value) :=
  omap (fun e => match e with Emit name args => Some (name, args) | _ => None end) t.

Definition warnings (t : list effect) : list string :=
  omap (fun e => match e with ConsoleWarn text => Some text | _ => None end) t.

Definition sends (t : list effect) : list (WebSocket * OutMessage) :=
  omap (fun e => match e with Send sock m => Some (sock, m) | _ => None end) t.

Definition timers (t : list effect) : list (TimerCallback * float) :=
  omap (fun e => match e with SetTimeout cb delay => Some (cb, delay) | _ => None end) t.

Definition sockets (t : list effect) : list WebSocket :=
  omap (fun e => match e with NewWebSocket sock _ => Some sock | _ => None end) t.

(** What the listeners of one emission come to: the exception of the first
    that throws, if any. *)
Fixpoint listeners_result (ls : list Listener) (args : list value) : result unit :=
  match ls with
  | [] => Ok tt
  | l :: rest =>
      match l args with
      | Returns => listeners_result rest args
      | Throws e => Err e
      end
  end.

Definition listeners_of (name : string) (b : SmartBuilding) : list Listener :=
  default [] (listeners b !! name).

(** What the catch clause of [handleMessage] adds to the trace. *)
Definition caught (r : result unit) : list effect :=
  match r with
  | Ok _ => []
  | Err e => [ConsoleError "Failed to handle message:" e]
  end.

(** The two snapshots the server pushes, the message type that carries each,
    the notification that announces it and the field that caches it. *)
Inductive snapshot : Type :=
| Building
| Players.

Definition type_name (s : snapshot) : string :=
  match s with Building => "building" | Players => "players" end.

Definition event_name (s : snapshot) : string :=
  match s with Building => "buildingInfo" | Players => "players" end.

Definition cached (s : snapshot) (b : SmartBuilding) : value :=
  match s with Building => buildingInfo b | Players => players b end.

Definition set_cached (s : snapshot) (v : value) (b : SmartBuilding) : SmartBuilding :=
  match s with Building => set_buildingInfo v b | Players => set_players v b end.

(** Events that open no connection: everything but [run()] and the
    reconnect timer. *)
Definition connects (e : event) : bool :=
  match e with
  | CallRun _ | TimerFires _ _ => true
  | _ => false
  end.

(** What the action branch of the router does once the key is known, read
    off the source; [body_action] below relates it to [handleMessage]. *)
Definition dispatch (data actionName : value) (key : string) (b : SmartBuilding) : Run unit :=
  match lookup_handler key (actionHandlers b) with
  | SlotHandler h =>
      let ctx := MkContext (field data "playerID") (field data "playerName") (ws b)
                           (field data "actionID") actionName in
      if Nat.eqb (fn_length (func h)) 2 then
        invoke (func h) ctx [field data "payload"] b
      else if Nat.eqb (fn_length (func h)) 3 then
        invoke (func h) ctx [field data "payload"; field data "payment"] b
      else
        MkRun (Ok tt) b
          [ConsoleWarn ("Handler for action '" +:+ key
                          +:+ "' has an unexpected number of parameters")]
  | SlotUndefined => MkRun (Ok tt) b [ConsoleWarn ("No handler for action '" +:+ key +:+ "'")]
  | SlotString s =>
      if truthy_string s then MkRun (Err TypeError) b []
      else MkRun (Ok tt) b [ConsoleWarn ("No handler for action '" +:+ key +:+ "'")]
  | SlotFunction _ | SlotBuiltin => MkRun (Err TypeError) b []
  end.

(** What the announcement says of one handler. *)
Definition description_of (h : ActionHandler) : ActionDescription :=
  {| payload := payloadDescription h; payment := paymentDescription h |}.

(** The handler object that [action config handler] stores, written with the
    defaults spelled out. *)
Definition registered (config : Config.t) (handler : JSFunction) : ActionHandler :=
  {| func := handler;
     payloadDescription := default EmptyString (Config.payloadDescription config);
     paymentDescription := default EmptyString (Config.paymentDescription config) |}.

(** *** The other side of the connection

    The building lives with a host that creates sockets and fires timers,
    and a caller.  [Net] is what the host knows: the phase of every socket
    it has created, how many timers are set and have not fired, and whether
    [run()] has been called.  An event is [enabled] when the host, or a
    caller that starts the building once, can produce it: a socket opens
    once, while it is connecting; it delivers frames while it is open; it
    fails or closes once, and is silent afterwards; a timer fires only if
    one is set; a new socket is a socket that did not exist.  What the
    building asks for in reaction ([new WebSocket], [setTimeout]) goes back
    into the [Net]. *)
Inductive phase : Type :=
| Connecting
| Opened
| Closed.

Record Net : Type := MkNet {
  phases : gmap WebSocket phase;
  pending : nat;
  started : bool
}.

Definition idle : Net := MkNet ∅ 0 false.

Definition live (n : Net) (sock : WebSocket) : bool :=
  match phases n !! sock with
  | Some Connecting | Some Opened => true
  | _ => false
  end.

Definition unused (n : Net) (sock : WebSocket) : bool :=
  match phases n !! sock with
  | None => true
  | Some _ => false
  end.

Definition enabled (e : event) (n : Net) : bool :=
  match e with
  | CallAction _ _ | CallOn _ _ => true
  | CallRun sock => negb (started n) && unused n sock
  | SocketOpen sock =>
      match phases n !! sock with Some Connecting => true | _ => false end
  | SocketMessage sock _ =>
      match phases n !! sock with Some Opened => true | _ => false end
  | SocketError sock _ | SocketClose sock => live n sock
  | TimerFires _ sock => Nat.ltb 0 (pending n) && unused n sock
  end.

(** What the event itself changes for the host. *)
Definition react (e : event) (n : Net) : Net :=
  match e with
  | CallRun _ => MkNet (phases n) (pending n) true
  | SocketOpen sock => MkNet (<[sock := Opened]> (phases n)) (pending n) (started n)
  | SocketClose sock => MkNet (<[sock := Closed]> (phases n)) (pending n) (started n)
  | TimerFires _ _ => MkNet (phases n) (Nat.pred (pending n)) (started n)
  | _ => n
  end.

(** What a call of the building changes for the host. *)
Definition absorb (n : Net) (eff : effect) : Net :=
  match eff with
  | NewWebSocket sock _ => MkNet (<[sock := Connecting]> (phases n)) (pending n) (started n)
  | SetTimeout _ _ => MkNet (phases n) (S (pending n)) (started n)
  | _ => n
  end.

Record World : Type := MkWorld {
  obj : SmartBuilding;
  net : Net
}.

Section World.
Context {host : Host} {consts : Constants}.

Definition world_step (e : event) (w : World) : option World :=
  if enabled e (net w) then
    Some (MkWorld (final (step e (obj w)))
                  (foldl absorb (react e (net w)) (effects (step e (obj w)))))
  else None.

Fixpoint play (evs : list event) (w : World) : option World :=
  match evs with
  | [] => Some w
  | e :: rest =>
      match world_step e w with
      | Some w' => play rest w'
      | None => None
      end
  end.

Definition genesis (options : Options.t) : World :=
  MkWorld (constructor options) idle.

End World.

(** What holds of a building and its host all along: a socket that is not
    closed is the current connection, and no timer is set while there is
    one; at most one timer is set; before [run()] there is neither socket
    nor timer. *)
Definition settled (w : World) : Prop :=
  (forall sock, live (net w) sock = true -> ws (obj w) = Some sock /\ pending (net w) = 0) /\
  pending (net w) <= 1 /\
  (started (net w) = false -> phases (net w) = ∅ /\ pending (net w) = 0).

Definition closes (t : list effect) : list WebSocket :=
  omap (fun e => match e with Close sock => Some sock | _ => None end) t.

(** What the constructor fixes: the fields no method assigns again. *)
Definition configuration (b : SmartBuilding) : string * float * string * float :=
  (apiKey b, buildingId b, wsEndpoint b, reconnectInterval b).

(** Frames arriving one after the other on a socket. *)
Definition deliveries (sock : WebSocket) (frames : list string) : list event :=
  map (SocketMessage sock) frames.

(** Histories in which the caller registers nothing. *)
Definition registers (e : event) : bool :=
  match e with
  | CallAction _ _ => true
  | _ => false
  end.

(** A building that was started is attended: it has a socket that is not
    closed, or a timer that will reconnect it. *)
Definition attended (n : Net) : Prop :=
  started n = true -> (exists sock, live n sock = true) \/ pending n = 1.

(** What the action branch can have done: nothing, one call of a handler,
    or one warning. *)
Inductive action_trace : list effect -> Prop :=
| TraceNothing : action_trace []
| TraceInvoke f ctx args : action_trace [Invoke f ctx args]
| TraceWarn text : action_trace [ConsoleWarn text].

Section Cases.
Context {host : Host}.

(** Every frame falls in one of the router's cases. *)
Inductive routed (message : string) (b : SmartBuilding) : Run unit -> Prop :=
| RoutedUnparsed :
    JSON_parse message = None ->
    routed message b (MkRun (Err SyntaxError) b [])
| RoutedNullish msg :
    JSON_parse message = Some msg -> nullish msg = true ->
    routed message b (MkRun (Err TypeError) b [])
| RoutedSnapshot msg s :
    JSON_parse message = Some msg -> field msg "type" = VString (type_name s) ->
    routed message b
      (MkRun (listeners_result (listeners_of (event_name s) b) [field msg "data"])
             (set_cached s (field msg "data") b)
             [Emit (event_name s) [field msg "data"]])
| RoutedAction msg r :
    JSON_parse message = Some msg -> field msg "type" = VString "action" ->
    final r = b -> action_trace (effects r) ->
    routed message b r
| RoutedOther msg :
    JSON_parse message = Some msg -> nullish msg = false ->
    field msg "type" <> VString "building" ->
    field msg "type" <> VString "players" ->
    field msg "type" <> VString "action" ->
    routed message b (MkRun (Ok tt) b []).

(** [carries s message]: the frame is a push of the snapshot [s]. *)
Definition carries (s : snapshot) (message : string) : bool :=
  match JSON_parse message with
  | Some msg => strict_eq_string (field msg "type") (type_name s)
  | None => false
  end.

End Cases.

(** The caller registering actions one after the other. *)
Definition registrations (regs : list (Config.t * JSFunction)) : list event :=
  map (fun r => CallAction r.1 r.2) regs.

(** The registry as the specification describes it, to compare the object of
    the code with: a map from action names to handlers in which names are
    unique and the last registration of a name wins, each handler with its
    two descriptions, the empty string standing for one that was omitted.
    [spec_registry evs] is that map after the registrations of the history
    [evs]; no other event touches it. *)
Definition spec_register (acc : gmap string ActionHandler) (e : event) :
    gmap string ActionHandler :=
  match e with
  | CallAction config handler => <[Config.action config := registered config handler]> acc
  | _ => acc
  end.

Definition spec_registry (evs : list event) : gmap string ActionHandler :=
  foldl spec_register ∅ evs.

(** ** A host and a building for the examples *)

Module Sample.

(** JSON text of a value without numbers that need a fraction or an exponent
    and without characters that need escaping. *)
Definition quoted (s : string) : string :=
  String "034"%char (s +:+ String "034"%char EmptyString).

(** The printing of the numbers the examples use (1, 3 and 7).  It agrees
    with [Number.prototype.toString] on zero, on infinities, on NaN and on
    integers of magnitude at most 2^53; on any other number it prints the
    integer part of the exact binary value, which JavaScript does not.  No
    general fact below depends on it: they are stated for every [Host]. *)
Definition print_number (n : float) : string :=
  match Prim2SF n with
  | S754_zero _ => "0"
  | S754_infinity s => if s then "-Infinity" else "Infinity"
  | S754_nan => "NaN"
  | S754_finite s m e =>
      let z := (if (0 <=? e)%Z then Z.pos m * 2 ^ e else Z.pos m / 2 ^ (- e))%Z in
      (if s then "-" else EmptyString) +:+ pretty z
  end.

Fixpoint text_of (v : value) : string :=
  match v with
  | VUndefined => "undefined"
  | VNull => "null"
  | VBool true => "true"
  | VBool false => "false"
  | VNumber n => print_number n
  | VString s => quoted s
  | VArray items =>
      "[" +:+
      (fix go (first : bool) (l : list value) : string :=
         match l with
         | [] => EmptyString
         | x :: rest => (if first then EmptyString else ",") +:+ text_of x +:+ go false rest
         end) true items
      +:+ "]"
  | VObject props =>
      "{" +:+
      (fix go (first : bool) (l : list (string * value)) : string :=
         match l with
         | [] => EmptyString
         | (k, x) :: rest =>
             (if first then EmptyString else ",") +:+ quoted k +:+ ":" +:+ text_of x
               +:+ go false rest
         end) true props
      +:+ "}"
  end.

(** The frames of the examples, as the values they denote. *)
Definition players_push : value :=
  VObject [("type", VString "players");
           ("data", VArray [VObject [("id", VNumber 1); ("name", VString "A")]])].

Definition building_push : value :=
  VObject [("type", VString "building");
           ("data", VObject [("name", VString "Tower"); ("floors", VNumber 3)])].

Definition request (name : string) (payment : list (string * value)) : value :=
  VObject [("type", VString "action");
           ("data", VObject ([("action", VString name); ("playerID", VNumber 1);
                              ("playerName", VString "A"); ("actionID", VString "x1");
                              ("payload", VObject [("content", VString "hi")])] ++ payment))].

Definition echo_request : value := request "echo" [].
Definition purchase_request : value := request "purchase" [("payment", VNumber 1)].
Definition ping_request : value := request "ping" [].
Definition boom_request : value := request "boom" [].
Definition toString_request : value := request "toString" [].
Definition dance_request : value := request "dance" [].
Definition chat_push : value :=
  VObject [("type", VString "chat"); ("data", VString "hello")].

Definition frames : list value :=
  [players_push; building_push; echo_request; purchase_request; ping_request;
   boom_request; toString_request; dance_request; chat_push].

(** A host that parses the frames above and nothing else, and prints
    numbers with [print_number], which is faithful on the small integers of
    the examples only. *)
Definition host : Host :=
  {| JSON_parse := fun text => List.find (fun v => String.eqb (text_of v) text) frames;
     Number_toString := print_number |}.

Definition consts : Constants :=
  {| DEFAULT_WS_ENDPOINT := "wss://backend.agiverse.io/ws" |}.

Definition garbage : string := "{type:".

Definition options : Options.t :=
  Options.Make "KEY" 7%float None None.

(** Handlers: two parameters, three, one, and two with a body that throws. *)
Definition echo : JSFunction := MkFunction 2 (fun _ _ => Returns).
Definition purchase : JSFunction := MkFunction 3 (fun _ _ => Returns).
Definition ping : JSFunction := MkFunction 1 (fun _ _ => Returns).
Definition boom : JSFunction := MkFunction 2 (fun _ _ => Throws (Thrown (VString "boom"))).

Definition echo_config : Config.t := Config.Make "echo" (Some "{content: string}") None.
Definition purchase_config : Config.t := Config.Make "purchase" (Some "{content: string}") (Some "1").
Definition ping_config : Config.t := Config.Make "ping" None None.
Definition boom_config : Config.t := Config.Make "boom" None None.

Definition history : list event :=
  [CallAction echo_config echo; CallAction purchase_config purchase;
   CallAction ping_config ping; CallAction boom_config boom;
   CallRun 1; SocketOpen 1].

Definition building : SmartBuilding :=
  @exec host history (@constructor consts options).

(** A listener that throws, and the building with it attached. *)
Definition refuse : Listener := fun _ => Throws (Thrown (VString "refused")).

Definition guarded : SmartBuilding :=
  @exec host [CallOn "buildingInfo" refuse] building.

(** A frame as text, and the context every sample request gives its
    handler on the sample building. *)
Definition frame (v : value) : string := text_of v.

Definition context (name : string) : ActionContext :=
  {| playerId := VNumber 1; playerName := VString "A"; ctx_ws := Some 1;
     actionId := VString "x1"; actionName := VString name |}.

End Sample.

(** ** Frames at the edges, for the examples of the further properties *)

Module Edge.

(** Requests with something missing, and a request for an action that the
    sample building does not have yet. *)
Definition bare_request : value :=
  VObject [("type", VString "action")].

Definition null_request : value :=
  VObject [("type", VString "action"); ("data", VNull)].

Definition nameless_request : value :=
  VObject [("type", VString "action");
           ("data", VObject [("playerID", VNumber 1); ("payload", VString "hi")])].

Definition wave_request : value := Sample.request "wave" [].

Definition frames : list value :=
  Sample.frames ++ [bare_request; null_request; nameless_request; wave_request].

(** The sample host, knowing these frames as well. *)
Definition host : Host :=
  {| JSON_parse := fun text => List.find (fun v => String.eqb (Sample.text_of v) text) frames;
     Number_toString := Sample.print_number |}.

Definition wave : JSFunction := MkFunction 3 (fun _ _ => Returns).
Definition wave_config : Config.t := Config.Make "wave" None (Some "2").

(** The sample building, with this host. *)
Definition building : SmartBuilding :=
  @exec host Sample.history (@constructor Sample.consts Sample.options).

(** A history with a reconnection, and the world it leads to. *)
Definition reconnection : list event :=
  [CallAction Sample.echo_config Sample.echo; CallRun 1; SocketOpen 1; SocketClose 1;
   CallAction Sample.ping_config Sample.ping; TimerFires CallConnect 2].

Definition reconnected : World :=
  MkWorld (@exec host reconnection (@constructor Sample.consts Sample.options))
          (MkNet (<[2 := Connecting]> (<[1 := Closed]> ∅)) 0 true).

(** A history that stops between a close and the timer. *)
Definition interruption : list event :=
  [CallRun 1; SocketOpen 1; SocketClose 1].

Definition interrupted : World :=
  MkWorld (@exec host interruption (@constructor Sample.consts Sample.options))
          (MkNet (<[1 := Closed]> ∅) 1 true).

(** A building with an action named [__proto__] beside an ordinary one,
    started on socket 1. *)
Definition proto_config : Config.t :=
  Config.Make "__proto__" (Some "{content: string}") None.

Definition shadowed : list event :=
  [CallAction Sample.ping_config Sample.ping; CallAction proto_config Sample.echo; CallRun 1].

(** A handler that declares one parameter, registered under a name of its
    own. *)
Definition nod : JSFunction := MkFunction 1 (fun _ _ => Returns).

End Edge.

(** ** Basic facts about the computations *)

Section Facts.
Context {host : Host} {consts : Constants}.

Lemma call_listeners_run (ls : list Listener) (args : list value) (b : SmartBuilding) :
  call_listeners ls args b = MkRun (listeners_result ls args) b [].
Proof.
  induction ls as [|l rest IH]; simpl; [reflexivity|].
  unfold bind, settle. destruct (l args); simpl.
  - rewrite IH. reflexivity.
  - reflexivity.
Qed.

Lemma emit_run (name : string) (args : list value) (b : SmartBuilding) :
  emit name args b = MkRun (listeners_result (listeners_of name b) args) b [Emit name args].
Proof.
  unfold emit, bind, this, perform. simpl.
  rewrite call_listeners_run. reflexivity.
Qed.

Lemma invoke_run (f : JSFunction) (ctx : ActionContext) (args : list value) (b : SmartBuilding) :
  invoke f ctx args b =
    MkRun (match fn_call f ctx args with Returns => Ok tt | Throws e => Err e end)
          b [Invoke f ctx args].
Proof.
  unfold invoke, bind, perform, settle. simpl.
  destruct (fn_call f ctx args); reflexivity.
Qed.

Lemma try_catch_run (body : M unit) (b : SmartBuilding) :
  let r := body b in
  try_catch body (fun error => perform (ConsoleError "Failed to handle message:" error)) b =
    MkRun (Ok tt) (final r) (effects r ++ caught (completion r)).
Proof.
  unfold try_catch, perform. simpl.
  destruct (body b) as [[[]|e] b1 t1]; simpl; [rewrite app_nil_r|]; reflexivity.
Qed.

Lemma Get_Ok (v : value) (k : string) (x : value) :
  Get v k = Ok x -> nullish v = false /\ x = field v k.
Proof.
  unfold Get. destruct (nullish v); [discriminate|]. intros [= <-]. auto.
Qed.

Lemma strict_eq_string_true (v : value) (s : string) :
  strict_eq_string v s = true <-> v = VString s.
Proof.
  destruct v; simpl; try (split; [discriminate|intros [=]]).
  rewrite String.eqb_eq. split; [intros ->; reflexivity|intros [= ->]; reflexivity].
Qed.

(** *** The router, branch by branch *)

Ltac run_body :=
  unfold handleMessage_body, parse, Get, bind, lift, ret, throw, this, assign, perform.

Lemma body_unparsed (message : string) (b : SmartBuilding) :
  JSON_parse message = None ->
  handleMessage_body message b = MkRun (Err SyntaxError) b [].
Proof. intros H. run_body. rewrite H. reflexivity. Qed.

Lemma body_nullish (message : string) (msg : value) (b : SmartBuilding) :
  JSON_parse message = Some msg -> nullish msg = true ->
  handleMessage_body message b = MkRun (Err TypeError) b [].
Proof. intros H Hn. run_body. rewrite H. simpl. rewrite Hn. reflexivity. Qed.

Lemma body_building (message : string) (msg : value) (b : SmartBuilding) :
  JSON_parse message = Some msg -> field msg "type" = VString "building" ->
  handleMessage_body message b =
    MkRun (listeners_result (listeners_of "buildingInfo" b) [field msg "data"])
          (set_buildingInfo (field msg "data") b)
          [Emit "buildingInfo" [field msg "data"]].
Proof.
  intros H Ht. run_body. rewrite H. simpl.
  destruct (nullish msg) eqn:Hn; [destruct msg; discriminate|].
  simpl. rewrite Ht. simpl. rewrite emit_run. reflexivity.
Qed.

Lemma body_players (message : string) (msg : value) (b : SmartBuilding) :
  JSON_parse message = Some msg -> field msg "type" = VString "players" ->
  handleMessage_body message b =
    MkRun (listeners_result (listeners_of "players" b) [field msg "data"])
          (set_players (field msg "data") b)
          [Emit "players" [field msg "data"]].
Proof.
  intros H Ht. run_body. rewrite H. simpl.
  destruct (nullish msg) eqn:Hn; [destruct msg; discriminate|].
  simpl. rewrite Ht. simpl. rewrite emit_run. reflexivity.
Qed.

Lemma body_other (message : string) (msg : value) (b : SmartBuilding) :
  JSON_parse message = Some msg -> nullish msg = false ->
  strict_eq_string (field msg "type") "building" = false ->
  strict_eq_string (field msg "type") "players" = false ->
  strict_eq_string (field msg "type") "action" = false ->
  handleMessage_body message b = MkRun (Ok tt) b [].
Proof.
  intros H Hn H1 H2 H3. run_body. rewrite H. simpl. rewrite Hn. simpl.
  rewrite H1, H2, H3. reflexivity.
Qed.

Lemma body_action (message : string) (msg : value) (b : SmartBuilding) :
  JSON_parse message = Some msg -> field msg "type" = VString "action" ->
  handleMessage_body message b =
    if nullish (field msg "data") then MkRun (Err TypeError) b []
    else
      match ToPropertyKey (field (field msg "data") "action") with
      | Err e => MkRun (Err e) b []
      | Ok key => dispatch (field msg "data") (field (field msg "data") "action") key b
      end.
Proof.
  intros H Ht. run_body. rewrite H. simpl.
  destruct (nullish msg) eqn:Hn; [destruct msg; discriminate|].
  simpl. rewrite Ht. simpl.
  destruct (nullish (field msg "data")); simpl; [reflexivity|].
  destruct (ToPropertyKey (field (field msg "data") "action")) as [key|e]; simpl; [|reflexivity].
  unfold dispatch.
  destruct (lookup_handler key (actionHandlers b)) as [h|f|s| |]; simpl; try reflexivity.
  - destruct (Nat.eqb (fn_length (func h)) 2);
      [|destruct (Nat.eqb (fn_length (func h)) 3)];
      match goal with
      | |- context [invoke ?f ?c ?a ?s] => destruct (invoke f c a s) as [[[]|] ? ?]; reflexivity
      | _ => reflexivity
      end.
  - destruct (truthy_string s); reflexivity.
Qed.

Lemma handleMessage_run (message : string) (b : SmartBuilding) :
  let r := handleMessage_body message b in
  handleMessage message b = MkRun (Ok tt) (final r) (effects r ++ caught (completion r)).
Proof. apply try_catch_run. Qed.

Lemma dispatch_final (data actionName : value) (key : string) (b : SmartBuilding) :
  final (dispatch data actionName key b) = b.
Proof.
  unfold dispatch.
  destruct (lookup_handler key (actionHandlers b)) as [h|f|s| |]; simpl; try reflexivity.
  - destruct (Nat.eqb (fn_length (func h)) 2);
      [|destruct (Nat.eqb (fn_length (func h)) 3)];
      rewrite ?invoke_run; reflexivity.
  - destruct (truthy_string s); reflexivity.
Qed.

Lemma dispatch_trace (data actionName : value) (key : string) (b : SmartBuilding) :
  action_trace (effects (dispatch data actionName key b)).
Proof.
  unfold dispatch.
  destruct (lookup_handler key (actionHandlers b)) as [h|f|s| |]; simpl; try constructor.
  - destruct (Nat.eqb (fn_length (func h)) 2);
      [|destruct (Nat.eqb (fn_length (func h)) 3)];
      rewrite ?invoke_run; constructor.
  - destruct (truthy_string s); constructor.
Qed.

Lemma strict_eq_string_false (v : value) (s : string) :
  strict_eq_string v s = false <-> v <> VString s.
Proof.
  rewrite <- strict_eq_string_true. destruct (strict_eq_string v s); split; congruence.
Qed.

Lemma body_routed (message : string) (b : SmartBuilding) :
  routed message b (handleMessage_body message b).
Proof.
  destruct (JSON_parse message) as [msg|] eqn:Hp.
  2: { rewrite body_unparsed by assumption. by constructor. }
  destruct (nullish msg) eqn:Hn.
  { rewrite (body_nullish _ _ _ Hp Hn). by econstructor. }
  destruct (strict_eq_string (field msg "type") "building") eqn:H1.
  { apply strict_eq_string_true in H1.
    rewrite (body_building _ _ _ Hp H1). by apply (RoutedSnapshot _ _ msg Building). }
  destruct (strict_eq_string (field msg "type") "players") eqn:H2.
  { apply strict_eq_string_true in H2.
    rewrite (body_players _ _ _ Hp H2). by apply (RoutedSnapshot _ _ msg Players). }
  destruct (strict_eq_string (field msg "type") "action") eqn:H3.
  { apply strict_eq_string_true in H3.
    apply (RoutedAction _ _ msg); [done..| |]; rewrite (body_action _ _ _ Hp H3).
    - destruct (nullish (field msg "data")); [done|].
      destruct (ToPropertyKey _); [apply dispatch_final|done].
    - destruct (nullish (field msg "data")); [constructor|].
      destruct (ToPropertyKey _); [apply dispatch_trace|constructor]. }
  rewrite (body_other _ _ _ Hp Hn H1 H2 H3).
  apply (RoutedOther _ _ msg); [done..| | |]; by apply strict_eq_string_false.
Qed.

(** The state a frame leaves behind: the state it found, or that state with
    the one cached snapshot its type names replaced. *)
Lemma handleMessage_final (message : string) (b : SmartBuilding) :
  final (handleMessage message b) = b \/
  exists s msg, JSON_parse message = Some msg /\ field msg "type" = VString (type_name s) /\
                final (handleMessage message b) = set_cached s (field msg "data") b.
Proof.
  rewrite handleMessage_run. simpl.
  destruct (body_routed message b); simpl; eauto 6.
Qed.

Lemma snapshot_replaces_cache_aux (s : snapshot) (message : string) (msg : value)
    (b : SmartBuilding) :
  JSON_parse message = Some msg ->
  Get msg "type" = Ok (VString (type_name s)) ->
  let r := handleMessage message b in
  cached s (final r) = field msg "data" /\
  final r = set_cached s (field msg "data") b /\
  notifications (effects r) = [(event_name s, [field msg "data"])].
Proof.
  intros Hp Ht r.
  apply Get_Ok in Ht as [_ Ht]. symmetry in Ht.
  assert (handleMessage_body message b =
            MkRun (listeners_result (listeners_of (event_name s) b) [field msg "data"])
                  (set_cached s (field msg "data") b)
                  [Emit (event_name s) [field msg "data"]]) as Hb.
  { destruct s; [apply body_building|apply body_players]; assumption. }
  subst r. rewrite handleMessage_run, Hb. simpl.
  split; [|split].
  - destruct s; reflexivity.
  - reflexivity.
  - destruct (listeners_result _ _); destruct s; reflexivity.
Qed.

(** C6: a [building] frame replaces the cached BuildingInfo by the frame's
    [data], whatever was cached before, and emits [buildingInfo] with the new
    value; a [players] frame does the same to the cached PlayerRoster with the
    [players] notification.  Nothing else of the object changes. *)
Theorem snapshot_replaces_cache (s : snapshot) (message : string) (msg : value)
    (b : SmartBuilding) :
  JSON_parse message = Some msg ->
  Get msg "type" = Ok (VString (type_name s)) ->
  let r := handleMessage message b in
  cached s (final r) = field msg "data" /\
  final r = set_cached s (field msg "data") b /\
  notifications (effects r) = [(event_name s, [cached s (final r)])].
Proof.
  intros Hp Ht r.
  destruct (snapshot_replaces_cache_aux s message msg b Hp Ht) as (Hc & Hf & Hn).
  fold r in Hc, Hf, Hn. rewrite Hc. auto.
Qed.

(** C8: a frame that parses and whose type is none of [building], [players]
    and [action] changes nothing of the object (cached snapshots, registry,
    connection reference), reaches no handler and emits no notification; and
    whatever the frame, the object is afterwards as it was, except for the
    one cached snapshot that the frame's type names. *)
Theorem unknown_type_is_ignored (message : string) (msg : value) (b : SmartBuilding) :
  JSON_parse message = Some msg ->
  field msg "type" <> VString "building" ->
  field msg "type" <> VString "players" ->
  field msg "type" <> VString "action" ->
  let r := handleMessage message b in
  final r = b /\
  invocations (effects r) = [] /\
  notifications (effects r) = [] /\
  (forall (message' : string) (b' : SmartBuilding),
      let b'' := final (handleMessage message' b') in
      b'' = b' \/
      exists s msg', JSON_parse message' = Some msg' /\
                     field msg' "type" = VString (type_name s) /\
                     b'' = set_cached s (field msg' "data") b').
Proof.
  intros Hp H1 H2 H3 r. subst r.
  split; [|split; [|split]]; [| | |intros; apply handleMessage_final].
  all: rewrite handleMessage_run; simpl.
  all: destruct (nullish msg) eqn:Hn;
    [rewrite (body_nullish _ _ _ Hp Hn)
    |rewrite (body_other _ _ _ Hp Hn) by (by apply strict_eq_string_false)];
    reflexivity.
Qed.

(** *** The connection manager, listener by listener *)

Lemma on_open_run (b : SmartBuilding) :
  on_open b =
    MkRun (listeners_result (listeners_of "ready" b) []) b
          (ConsoleLog "WebSocket connection established."
             :: match ws b with
                | Some sock => [Send sock (registerActionsMessage b)]
                | None => []
                end
             ++ [Emit "ready" []]).
Proof.
  unfold on_open, ws_send, bind, this, perform. simpl.
  destruct (ws b); simpl; rewrite emit_run; reflexivity.
Qed.

Lemma on_close_run (b : SmartBuilding) :
  on_close b =
    MkRun (Ok tt) b
          [ConsoleWarn "Connection closed, attempting to reconnect...";
           SetTimeout CallConnect (reconnectInterval b)].
Proof. reflexivity. Qed.

Lemma on_error_run (error : exn) (b : SmartBuilding) :
  on_error error b =
    MkRun (Ok tt) b
          (ConsoleError "WebSocket error:" error
             :: match ws b with Some sock => [Close sock] | None => [] end).
Proof.
  unfold on_error, ws_close, bind, this, perform. simpl.
  destruct (ws b); reflexivity.
Qed.

Lemma connect_run (sock : WebSocket) (b : SmartBuilding) :
  connect sock b =
    MkRun (Ok tt) (set_ws (Some sock) b)
          [NewWebSocket sock
             (wsEndpoint b +:+ "?type=building&api-key=" +:+ apiKey b
                +:+ "&building-id=" +:+ Number_toString (buildingId b))].
Proof. reflexivity. Qed.

(** Only [run()] and the reconnect timer touch the connection reference. *)
Lemma step_ws (e : event) (b : SmartBuilding) :
  connects e = false -> ws (final (step e b)) = ws b.
Proof.
  destruct e as [config handler|name l|sock|sock|sock text|sock|sock error|cb sock];
    simpl; try discriminate; intros _; try reflexivity.
  - rewrite on_open_run. reflexivity.
  - unfold on_message.
    destruct (handleMessage_final text b) as [->|(s & msg & _ & _ & ->)];
      [|destruct s]; reflexivity.
  - rewrite on_error_run. reflexivity.
Qed.

(** Only [action] touches the registry. *)
Lemma step_actionHandlers (e : event) (b : SmartBuilding) :
  actionHandlers (final (step e b)) = actionHandlers b \/
  exists config handler, e = CallAction config handler.
Proof.
  destruct e as [config handler|name l|sock|sock|sock text|sock|sock error|[] sock];
    simpl; eauto; left; try reflexivity.
  - rewrite on_open_run. reflexivity.
  - unfold on_message.
    destruct (handleMessage_final text b) as [->|(s & msg & _ & _ & ->)];
      [|destruct s]; reflexivity.
  - rewrite on_error_run. reflexivity.
Qed.

Lemma exec_app (evs1 evs2 : list event) (b : SmartBuilding) :
  exec (evs1 ++ evs2) b = exec evs2 (exec evs1 b).
Proof. revert b. induction evs1 as [|e evs1 IH]; intros b; simpl; [reflexivity|apply IH]. Qed.

Lemma exec_ws (evs : list event) (b : SmartBuilding) :
  forallb (fun e => negb (connects e)) evs = true -> ws (exec evs b) = ws b.
Proof.
  revert b. induction evs as [|e evs IH]; intros b; simpl; [reflexivity|].
  intros [He Hevs]%andb_true_iff. rewrite IH by assumption.
  apply step_ws. by destruct (connects e).
Qed.

(** C9: the constructor takes a falsy [wsEndpoint] or [reconnectInterval] for
    an absent one, so that an interval of 0 gives 5000 and an empty endpoint
    gives the default endpoint; the new object has an empty registry, an
    empty roster, an empty BuildingInfo record and no connection, and it has
    none as long as neither [run()] nor a reconnect timer has run; [run()]
    gives it one. *)
Theorem constructor_defaults (key : string) (id : float)
    (endpoint : option string) (interval : option float) :
  let b := constructor (Options.Make key id endpoint interval) in
  (forall n : float, truthy_number n = false ->
     constructor (Options.Make key id endpoint (Some n)) =
     constructor (Options.Make key id endpoint None)) /\
  (forall s : string, truthy_string s = false ->
     constructor (Options.Make key id (Some s) interval) =
     constructor (Options.Make key id None interval)) /\
  reconnectInterval (constructor (Options.Make key id endpoint (Some 0%float))) = 5000%float /\
  reconnectInterval (constructor (Options.Make key id endpoint None)) = 5000%float /\
  wsEndpoint (constructor (Options.Make key id (Some EmptyString) interval)) = DEFAULT_WS_ENDPOINT /\
  wsEndpoint (constructor (Options.Make key id None interval)) = DEFAULT_WS_ENDPOINT /\
  apiKey b = key /\
  buildingId b = id /\
  actionHandlers b = empty_object /\
  (forall name : string, own (actionHandlers b) !! name = None) /\
  players b = VArray [] /\
  buildingInfo b = VObject [] /\
  ws b = None /\
  (forall evs : list event,
     forallb (fun e => negb (connects e)) evs = true -> ws (exec evs b) = None) /\
  (forall sock : WebSocket, ws (final (run sock b)) = Some sock).
Proof.
  intros b. repeat split; try reflexivity.
  - intros n Hn. unfold constructor. simpl. rewrite Hn. reflexivity.
  - intros s Hs. unfold constructor. simpl. rewrite Hs. reflexivity.
  - intros evs Hevs. rewrite exec_ws by assumption. reflexivity.
Qed.

(** *** The registry *)

Lemma or_else_string (x : option string) :
  or_else truthy_string x EmptyString = default EmptyString x.
Proof.
  destruct x as [s|]; simpl; [|reflexivity].
  unfold truthy_string. destruct (String.eqb_spec s EmptyString); simpl; congruence.
Qed.

Lemma action_run (config : Config.t) (handler : JSFunction) (b : SmartBuilding) :
  action config handler b =
    MkRun (Ok tt)
          (set_actionHandlers
             (obj_set (Config.action config) (registered config handler) (actionHandlers b)) b)
          [].
Proof.
  unfold action, assign, registered. rewrite !or_else_string. reflexivity.
Qed.

Lemma own_obj_set_proto {A : Type} (k : string) (v : A) (o : PlainObject A) :
  own (obj_set k v o) !! "__proto__" = own o !! "__proto__".
Proof.
  unfold obj_set. case_decide; simpl; [reflexivity|].
  by rewrite lookup_insert_ne.
Qed.

Lemma own_obj_set {A : Type} (k : string) (v : A) (o : PlainObject A) :
  k <> "__proto__" ->
  own (obj_set k v o) = <[k := v]> (own o) /\ proto (obj_set k v o) = proto o.
Proof. intros Hk. unfold obj_set. by rewrite decide_False. Qed.

(** No history gives the registry an own property named [__proto__]. *)
Lemma exec_no_own_proto (evs : list event) (b : SmartBuilding) :
  own (actionHandlers b) !! "__proto__" = None ->
  own (actionHandlers (exec evs b)) !! "__proto__" = None.
Proof.
  revert b. induction evs as [|e evs IH]; intros b Hb; simpl; [assumption|].
  apply IH.
  destruct (step_actionHandlers e b) as [->|(config & handler & ->)]; [assumption|].
  change (step (CallAction config handler) b) with (action config handler b).
  rewrite action_run. simpl. by rewrite own_obj_set_proto.
Qed.

Lemma reachable_no_own_proto (b : SmartBuilding) :
  reachable b -> own (actionHandlers b) !! "__proto__" = None.
Proof. intros (options & evs & ->). by apply exec_no_own_proto. Qed.

Lemma lookup_handler_own (o : PlainObject ActionHandler) (k : string) (h : ActionHandler) :
  own o !! k = Some h -> lookup_handler k o = SlotHandler h.
Proof. intros H. unfold lookup_handler. by rewrite H. Qed.

Lemma reduce_own (o : PlainObject ActionHandler) (keys : list string)
    (acc : PlainObject ActionDescription) :
  (forall k, k ∈ keys -> is_Some (own o !! k)) ->
  "__proto__" ∉ keys ->
  proto (foldl (reduce_step o) acc keys) = proto acc /\
  forall k, own (foldl (reduce_step o) acc keys) !! k =
            if decide (k ∈ keys) then description_of <$> own o !! k else own acc !! k.
Proof.
  revert acc. induction keys as [|k0 keys IH]; intros acc Hown Hproto; cbn [foldl].
  { split; [reflexivity|]. intros k. case_decide as Hin; [|reflexivity].
    by apply elem_of_nil in Hin. }
  destruct (Hown k0) as [h Hh]; [left|].
  assert (k0 <> "__proto__") as Hk0 by (intros ->; apply Hproto; left).
  unfold reduce_step at 2 4. rewrite (lookup_handler_own _ _ _ Hh).
  destruct (own_obj_set k0 (description_of h) acc Hk0) as [Ho Hp].
  destruct (IH (obj_set k0 (description_of h) acc)) as [IHp IHo].
  { intros k Hk. apply Hown. by right. }
  { intros Hin. apply Hproto. by right. }
  fold (description_of h). split; [by rewrite IHp|].
  intros k. rewrite IHo, Ho.
  destruct (decide (k ∈ keys)) as [Hin|Hnin].
  - rewrite decide_True by (by right). reflexivity.
  - destruct (decide (k = k0)) as [->|Hne].
    + rewrite decide_True by left. by rewrite lookup_insert_eq, Hh.
    + rewrite decide_False by (by intros [?|?]%elem_of_cons).
      by rewrite lookup_insert_ne.
Qed.

Lemma elem_of_Object_keys {A : Type} (o : PlainObject A) (k : string) :
  k ∈ Object_keys o <-> is_Some (own o !! k).
Proof.
  unfold Object_keys. rewrite list_elem_of_fmap. split.
  - intros ([k' v] & -> & Hin). apply elem_of_map_to_list in Hin. eauto.
  - intros [v Hv]. exists (k, v). split; [reflexivity|]. by apply elem_of_map_to_list.
Qed.

(** The announcement describes each own handler of the registry, and nothing
    else. *)
Lemma registerActionsMessage_own (b : SmartBuilding) :
  own (actionHandlers b) !! "__proto__" = None ->
  own (out_actions (registerActionsMessage b)) = description_of <$> own (actionHandlers b) /\
  proto (out_actions (registerActionsMessage b)) = None.
Proof.
  intros Hb. unfold registerActionsMessage. simpl.
  destruct (reduce_own (actionHandlers b) (Object_keys (actionHandlers b)) empty_object)
    as [Hp Ho].
  { intros k. apply elem_of_Object_keys. }
  { rewrite elem_of_Object_keys, Hb. by intros [? ?]. }
  split; [|exact Hp].
  apply map_eq. intros k. rewrite Ho, lookup_fmap.
  destruct (decide (k ∈ Object_keys (actionHandlers b))) as [Hin|Hnin]; [reflexivity|].
  simpl. rewrite lookup_empty.
  destruct (own (actionHandlers b) !! k) eqn:Hk; [|reflexivity].
  exfalso. apply Hnin, elem_of_Object_keys. eauto.
Qed.

Lemma lookup_handler_registered (config : Config.t) (handler : JSFunction) (b : SmartBuilding) :
  own (actionHandlers b) !! "__proto__" = None ->
  lookup_handler (Config.action config)
                 (actionHandlers (final (action config handler b))) =
    SlotHandler (registered config handler).
Proof.
  intros Hb. rewrite action_run. simpl.
  unfold obj_set. case_decide as Hk; unfold lookup_handler; simpl.
  - rewrite Hk, Hb. reflexivity.
  - by rewrite lookup_insert_eq.
Qed.

Lemma action_trace_sends (t : list effect) :
  action_trace t -> sends t = [].
Proof. by destruct 1. Qed.

Lemma sends_app (t1 t2 : list effect) :
  sends (t1 ++ t2) = sends t1 ++ sends t2.
Proof. apply omap_app. Qed.

(** The building sends nothing but its announcement. *)
Lemma step_sends (e : event) (b : SmartBuilding) :
  (forall sock, e <> SocketOpen sock) -> sends (effects (step e b)) = [].
Proof.
  destruct e as [config handler|name l|sock|sock|sock text|sock|sock error|[] sock];
    simpl; intros Hopen; try reflexivity.
  - by destruct (Hopen sock).
  - unfold on_message. rewrite handleMessage_run. simpl. rewrite sends_app.
    assert (sends (effects (handleMessage_body text b)) = []) as ->.
    { destruct (body_routed text b); simpl; try reflexivity. by apply action_trace_sends. }
    by destruct (completion _).
  - rewrite on_error_run. simpl. by destruct (ws b).
Qed.

(** *** The registry of the code and the registry of the specification *)

(** The object of the code holds the registry of the specification in two
    places: every name but [__proto__] as an own property, and the handler
    registered under [__proto__] as its prototype. *)
Lemma step_refines (e : event) (acc : gmap string ActionHandler) (b : SmartBuilding) :
  own (actionHandlers b) = delete "__proto__" acc ->
  proto (actionHandlers b) = acc !! "__proto__" ->
  own (actionHandlers (final (step e b))) = delete "__proto__" (spec_register acc e) /\
  proto (actionHandlers (final (step e b))) = spec_register acc e !! "__proto__".
Proof.
  intros Hown Hproto.
  destruct (step_actionHandlers e b) as [Hsame|(config & handler & ->)];
    [destruct e as [config handler| | | | | | |];
       [clear Hsame|rewrite Hsame; by split ..]|].
  all: change (step (CallAction config handler) b) with (action config handler b).
  all: rewrite action_run; cbn [final actionHandlers set_actionHandlers spec_register].
  all: unfold obj_set; case_decide as Hk; cbn [own proto].
  1,3: rewrite Hk, delete_insert_eq, lookup_insert_eq; by split.
  all: rewrite delete_insert_ne, lookup_insert_ne by done; by rewrite Hown.
Qed.

Lemma exec_refines (evs : list event) (acc : gmap string ActionHandler) (b : SmartBuilding) :
  own (actionHandlers b) = delete "__proto__" acc ->
  proto (actionHandlers b) = acc !! "__proto__" ->
  own (actionHandlers (exec evs b)) = delete "__proto__" (foldl spec_register acc evs) /\
  proto (actionHandlers (exec evs b)) = foldl spec_register acc evs !! "__proto__".
Proof.
  revert acc b. induction evs as [|e evs IH]; intros acc b Hown Hproto; [by split|].
  cbn [exec foldl]. destruct (step_refines e acc b Hown Hproto) as [Hown' Hproto'].
  by apply IH.
Qed.

(** The registry answers with a handler object for the registered names, and
    for no other name. *)
Lemma lookup_handler_refines (o : PlainObject ActionHandler)
    (acc : gmap string ActionHandler) (name : string) (h : ActionHandler) :
  own o = delete "__proto__" acc ->
  proto o = acc !! "__proto__" ->
  lookup_handler name o = SlotHandler h <-> acc !! name = Some h.
Proof.
  intros Hown Hproto. unfold lookup_handler. rewrite Hown, Hproto.
  destruct (decide (name = "__proto__")) as [->|Hname].
  - rewrite lookup_delete_eq.
    destruct (acc !! "__proto__") as [h'|]; cbn; split; congruence.
  - rewrite lookup_delete_ne by done.
    destruct (acc !! name) as [h'|]; [split; congruence|].
    destruct (String.eqb_spec name "__proto__") as [|_]; [done|].
    destruct (acc !! "__proto__") as [h'|];
      repeat (match goal with |- context [if ?c then _ else _] => destruct c end);
      split; discriminate.
Qed.

(** C2 fails on the code for the name [__proto__].  When a connection opens,
    the listener sends exactly one message, on the current connection, of
    type [registerActions], and the building sends nothing on any other
    event.  The registry answers with a handler for exactly the names that
    have been registered, each with the handler and the descriptions of its
    last registration, the empty string standing for a description that was
    omitted.  The keys of [data.actions], however, are those names without
    [__proto__], each with the payload and payment descriptions of its
    handler: a building on which [__proto__] has been registered answers
    requests for it and leaves it out of the announcement. *)
Theorem open_announces_all_but_proto (options : Options.t) (evs : list event)
    (sock : WebSocket) :
  let b := exec evs (constructor options) in
  ws b = Some sock ->
  exists m : OutMessage,
    sends (effects (step (SocketOpen sock) b)) = [(sock, m)] /\
    out_type m = "registerActions" /\
    (forall (name : string) (h : ActionHandler),
        lookup_handler name (actionHandlers b) = SlotHandler h <->
        spec_registry evs !! name = Some h) /\
    own (out_actions m) = description_of <$> delete "__proto__" (spec_registry evs) /\
    proto (out_actions m) = None /\
    (forall (e : event) (b0 : SmartBuilding),
        (forall sock0, e <> SocketOpen sock0) -> sends (effects (step e b0)) = []).
Proof.
  intros b Hws.
  destruct (exec_refines evs ∅ (constructor options)) as [Hown Hproto].
  { cbn. by rewrite delete_empty. }
  { reflexivity. }
  fold (spec_registry evs) in Hown, Hproto. fold b in Hown, Hproto.
  assert (own (actionHandlers b) !! "__proto__" = None) as Hnone.
  { rewrite Hown. apply lookup_delete_eq. }
  destruct (registerActionsMessage_own b Hnone) as [Hout Hnoproto].
  exists (registerActionsMessage b).
  split; [cbn [step]; rewrite on_open_run, Hws; reflexivity|].
  split; [reflexivity|].
  split; [intros name h; by apply lookup_handler_refines|].
  split; [by rewrite Hout, Hown|].
  split; [exact Hnoproto|].
  intros e b0. apply step_sends.
Qed.

(** *** Dispatch of an action request *)

Lemma body_action_key (message : string) (msg data actionName : value) (key : string)
    (b : SmartBuilding) :
  JSON_parse message = Some msg ->
  Get msg "type" = Ok (VString "action") ->
  Get msg "data" = Ok data ->
  Get data "action" = Ok actionName ->
  ToPropertyKey actionName = Ok key ->
  handleMessage_body message b = dispatch data actionName key b.
Proof.
  intros Hp [_ Ht]%Get_Ok [_ ->]%Get_Ok [Hn ->]%Get_Ok Hk.
  rewrite (body_action _ _ _ Hp (eq_sym Ht)), Hn, Hk. reflexivity.
Qed.

Lemma dispatch_handler (data actionName : value) (key : string) (h : ActionHandler)
    (b : SmartBuilding) :
  lookup_handler key (actionHandlers b) = SlotHandler h ->
  let ctx := MkContext (field data "playerID") (field data "playerName") (ws b)
                       (field data "actionID") actionName in
  dispatch data actionName key b =
    if Nat.eqb (fn_length (func h)) 2 then
      invoke (func h) ctx [field data "payload"] b
    else if Nat.eqb (fn_length (func h)) 3 then
      invoke (func h) ctx [field data "payload"; field data "payment"] b
    else
      MkRun (Ok tt) b
        [ConsoleWarn ("Handler for action '" +:+ key
                        +:+ "' has an unexpected number of parameters")].
Proof. intros Hl. unfold dispatch. rewrite Hl. reflexivity. Qed.

(** C1, as the code has it: the handler registered for the requested action
    is called as (context, payload) when it declares two parameters, the
    payload being the message's and no payment being passed, and as
    (context, payload, payment) when it declares three, both being the
    message's; with any other declared count, one included, it is not called
    and a warning is logged. *)
Theorem handler_called_by_declared_arity (message : string) (msg data actionName : value)
    (key : string) (h : ActionHandler) (b : SmartBuilding) :
  JSON_parse message = Some msg ->
  Get msg "type" = Ok (VString "action") ->
  Get msg "data" = Ok data ->
  Get data "action" = Ok actionName ->
  ToPropertyKey actionName = Ok key ->
  lookup_handler key (actionHandlers b) = SlotHandler h ->
  let r := handleMessage message b in
  let ctx := MkContext (field data "playerID") (field data "playerName") (ws b)
                       (field data "actionID") actionName in
  (fn_length (func h) = 2 ->
     invocations (effects r) = [(func h, ctx, [field data "payload"])] /\
     warnings (effects r) = []) /\
  (fn_length (func h) = 3 ->
     invocations (effects r) =
       [(func h, ctx, [field data "payload"; field data "payment"])] /\
     warnings (effects r) = []) /\
  (fn_length (func h) <> 2 -> fn_length (func h) <> 3 ->
     invocations (effects r) = [] /\
     warnings (effects r) =
       ["Handler for action '" +:+ key +:+ "' has an unexpected number of parameters"]).
Proof.
  intros Hp Ht Hd Ha Hk Hl r ctx. subst r.
  rewrite handleMessage_run. simpl.
  rewrite (body_action_key _ _ _ _ _ _ Hp Ht Hd Ha Hk), (dispatch_handler _ _ _ _ _ Hl).
  fold ctx. split; [|split].
  - intros ->. simpl. rewrite invoke_run. simpl.
    destruct (fn_call (func h) ctx _); auto.
  - intros ->. simpl. rewrite invoke_run. simpl.
    destruct (fn_call (func h) ctx _); auto.
  - intros H2%Nat.eqb_neq H3%Nat.eqb_neq. rewrite H2, H3. auto.
Qed.

(** C10: when the handler that a request reaches throws, [handleMessage]
    still completes: the exception is logged by the catch clause after the
    call, the object is left exactly as it was (cached snapshots, registry
    and all), and so every later frame is routed as if the failing one had
    not come. *)
Theorem throwing_handler_is_contained (message : string) (msg data actionName : value)
    (key : string) (h : ActionHandler) (b : SmartBuilding) (e : exn) :
  JSON_parse message = Some msg ->
  Get msg "type" = Ok (VString "action") ->
  Get msg "data" = Ok data ->
  Get data "action" = Ok actionName ->
  ToPropertyKey actionName = Ok key ->
  lookup_handler key (actionHandlers b) = SlotHandler h ->
  let ctx := MkContext (field data "playerID") (field data "playerName") (ws b)
                       (field data "actionID") actionName in
  let args := if Nat.eqb (fn_length (func h)) 2
              then [field data "payload"]
              else [field data "payload"; field data "payment"] in
  fn_length (func h) = 2 \/ fn_length (func h) = 3 ->
  fn_call (func h) ctx args = Throws e ->
  let r := handleMessage message b in
  completion r = Ok tt /\
  effects r = [Invoke (func h) ctx args; ConsoleError "Failed to handle message:" e] /\
  final r = b /\
  buildingInfo (final r) = buildingInfo b /\
  players (final r) = players b /\
  actionHandlers (final r) = actionHandlers b /\
  (forall message' : string, handleMessage message' (final r) = handleMessage message' b).
Proof.
  intros Hp Ht Hd Ha Hk Hl ctx args Hn Hthrow r. subst r.
  rewrite handleMessage_run. simpl.
  rewrite (body_action_key _ _ _ _ _ _ Hp Ht Hd Ha Hk), (dispatch_handler _ _ _ _ _ Hl).
  fold ctx.
  assert ((if Nat.eqb (fn_length (func h)) 2
           then invoke (func h) ctx [field data "payload"] b
           else if Nat.eqb (fn_length (func h)) 3
                then invoke (func h) ctx [field data "payload"; field data "payment"] b
                else MkRun (Ok tt) b
                       [ConsoleWarn ("Handler for action '" +:+ key
                                       +:+ "' has an unexpected number of parameters")])
          = invoke (func h) ctx args b) as ->.
  { subst args. destruct Hn as [->| ->]; reflexivity. }
  rewrite invoke_run, Hthrow. simpl. auto 10.
Qed.

(** *** Frames that fail *)

(** C4, as the code has it: when a frame does not parse, or its handling
    throws, [handleMessage] completes all the same, having logged the
    exception; the registry and the connection reference are as before, and
    so are the cached BuildingInfo and PlayerRoster (an unparsable frame
    changes nothing at all), with one exception: the exception came from a
    listener of the notification of a [building] or [players] frame, and then
    that snapshot has already been replaced by the frame's data.  A [players]
    frame that comes next is routed and replaces the roster. *)
Theorem failed_frame_is_dropped (message : string) (e : exn) (b : SmartBuilding)
    (message' : string) (msg' : value) :
  completion (handleMessage_body message b) = Err e ->
  JSON_parse message' = Some msg' ->
  Get msg' "type" = Ok (VString "players") ->
  let r := handleMessage message b in
  let r' := handleMessage message' (final r) in
  completion r = Ok tt /\
  effects r = effects (handleMessage_body message b)
                ++ [ConsoleError "Failed to handle message:" e] /\
  actionHandlers (final r) = actionHandlers b /\
  ws (final r) = ws b /\
  (JSON_parse message = None -> e = SyntaxError /\ final r = b) /\
  (final r = b \/
   exists s msg,
     JSON_parse message = Some msg /\ field msg "type" = VString (type_name s) /\
     listeners_result (listeners_of (event_name s) b) [field msg "data"] = Err e /\
     final r = set_cached s (field msg "data") b) /\
  completion r' = Ok tt /\
  players (final r') = field msg' "data" /\
  notifications (effects r') = [("players", [field msg' "data"])].
Proof.
  intros He Hp' Ht' r r'.
  destruct (snapshot_replaces_cache_aux Players message' msg' (final r) Hp' Ht')
    as (Hc & _ & Hn).
  unfold cached, event_name in Hc, Hn.
  assert (completion r' = Ok tt) as Hr' by (subst r'; by rewrite handleMessage_run).
  subst r r'. rewrite Hn, Hc. clear Hn Hc.
  rewrite !handleMessage_run in *. simpl in *. rewrite He. simpl.
  pose proof (body_routed message b) as Hrouted.
  destruct Hrouted as [Hnone|msg Hp Hnull|msg s Hp Ht|msg r Hp Ht Hfin Hnot|msg Hp Hnull H1 H2 H3];
    simpl in *.
  - injection He as <-. repeat split; auto.
  - repeat split; auto. congruence.
  - repeat split; try (destruct s; reflexivity); try congruence.
    right. exists s, msg. auto.
  - repeat split; try (rewrite Hfin; reflexivity); try congruence. by left.
  - discriminate.
Qed.

(** *** Reconnection *)







(** *** Requests for names that are not registered *)

Lemma lookup_handler_undefined (o : PlainObject ActionHandler) (key : string) :
  own o !! key = None -> proto o = None ->
  key <> "__proto__" -> key ∉ Object_prototype_names ->
  lookup_handler key o = SlotUndefined.
Proof.
  intros Hown Hproto Hk Hin. unfold lookup_handler. rewrite Hown, Hproto.
  destruct (String.eqb_spec key "__proto__"); [done|].
  by rewrite bool_decide_eq_false_2.
Qed.


(** A request for a name that the registry neither holds nor inherits is
    dropped with a warning; nothing is called, sent or changed. *)
Lemma unknown_action_is_dropped (message : string) (msg data actionName : value)
    (key : string) (b : SmartBuilding) :
  JSON_parse message = Some msg ->
  Get msg "type" = Ok (VString "action") ->
  Get msg "data" = Ok data ->
  Get data "action" = Ok actionName ->
  ToPropertyKey actionName = Ok key ->
  own (actionHandlers b) !! key = None ->
  proto (actionHandlers b) = None ->
  key <> "__proto__" -> key ∉ Object_prototype_names ->
  handleMessage message b =
    MkRun (Ok tt) b [ConsoleWarn ("No handler for action '" +:+ key +:+ "'")].
Proof.
  intros Hp Ht Hd Ha Hk Hown Hproto Hne Hin.
  rewrite handleMessage_run. simpl.
  rewrite (body_action_key _ _ _ _ _ _ Hp Ht Hd Ha Hk). unfold dispatch.
  rewrite lookup_handler_undefined by assumption. reflexivity.
Qed.


(** *** Registering a name more than once *)

Lemma lookup_handler_proto (o : PlainObject ActionHandler) (h : ActionHandler) :
  own o !! "__proto__" = None -> proto o = Some h ->
  lookup_handler "__proto__" o = SlotHandler h.
Proof. intros Hown Hproto. unfold lookup_handler. rewrite Hown, Hproto. reflexivity. Qed.

Lemma exec_registrations_cons (r : Config.t * JSFunction)
    (regs : list (Config.t * JSFunction)) (b : SmartBuilding) :
  exec (registrations (r :: regs)) b =
    exec (registrations regs)
         (set_actionHandlers (obj_set (Config.action r.1) (registered r.1 r.2) (actionHandlers b)) b).
Proof.
  unfold registrations. cbn [map exec].
  change (step (CallAction r.1 r.2) b) with (action r.1 r.2 b).
  rewrite action_run. reflexivity.
Qed.

Lemma other_registrations_keep (name : string) (h : ActionHandler)
    (regs : list (Config.t * JSFunction)) (b : SmartBuilding) :
  Forall (fun r => Config.action r.1 <> name) regs ->
  own (actionHandlers b) !! "__proto__" = None ->
  (if decide (name = "__proto__") then proto (actionHandlers b) = Some h
   else own (actionHandlers b) !! name = Some h) ->
  let b' := exec (registrations regs) b in
  own (actionHandlers b') !! "__proto__" = None /\
  (if decide (name = "__proto__") then proto (actionHandlers b') = Some h
   else own (actionHandlers b') !! name = Some h).
Proof.
  revert b. induction regs as [|r regs IH]; intros b Hregs Hinv Hh; [by split|].
  apply Forall_cons in Hregs as [Hr Hregs].
  cbv zeta. rewrite exec_registrations_cons.
  apply IH; [assumption| |]; simpl.
  - by rewrite own_obj_set_proto.
  - unfold obj_set. destruct (decide (name = "__proto__")) as [->|Hname].
    + by rewrite decide_False.
    + case_decide; simpl; [assumption|]. by rewrite lookup_insert_ne.
Qed.

(** Whatever is registered, in whatever order, the last registration of a
    name is the one the registry answers with; and unless the name is
    [__proto__], it is the one the next announcement describes. *)
Lemma last_registration_wins (b : SmartBuilding)
    (before after : list (Config.t * JSFunction)) (config : Config.t) (handler : JSFunction) :
  reachable b ->
  Forall (fun r => Config.action r.1 <> Config.action config) after ->
  let b' := exec (registrations (before ++ (config, handler) :: after)) b in
  lookup_handler (Config.action config) (actionHandlers b') =
    SlotHandler (registered config handler) /\
  (Config.action config <> "__proto__" ->
   own (out_actions (registerActionsMessage b')) !! Config.action config =
     Some (description_of (registered config handler))).
Proof.
  intros (options & evs & ->) Hafter b'.
  set (b1 := exec (evs ++ registrations before) (constructor options)).
  assert (own (actionHandlers b1) !! "__proto__" = None) as H1.
  { apply reachable_no_own_proto. by exists options, (evs ++ registrations before). }
  assert (b' = exec (registrations ((config, handler) :: after)) b1) as ->.
  { subst b' b1. unfold registrations. rewrite map_app, !exec_app. reflexivity. }
  rewrite exec_registrations_cons. cbn [fst snd].
  set (b2 := set_actionHandlers
               (obj_set (Config.action config) (registered config handler) (actionHandlers b1))
               b1).
  destruct (other_registrations_keep (Config.action config) (registered config handler)
              after b2 Hafter) as [Hinv Hh].
  { subst b2. simpl. rewrite own_obj_set_proto. exact H1. }
  { subst b2. simpl. unfold obj_set. case_decide; simpl; [reflexivity|].
    by rewrite lookup_insert_eq. }
  split.
  - destruct (decide (Config.action config = "__proto__")) as [Heq|Hne].
    + rewrite Heq. by apply lookup_handler_proto.
    + by apply lookup_handler_own.
  - intros Hne. rewrite decide_False in Hh by assumption.
    destruct (registerActionsMessage_own _ Hinv) as [-> _].
    by rewrite lookup_fmap, Hh.
Qed.

(** *** The building and its host together *)

Lemma action_trace_absorb (t : list effect) (n : Net) :
  action_trace t -> foldl absorb n t = n.
Proof. by destruct 1. Qed.

Lemma handleMessage_absorb (message : string) (b : SmartBuilding) (n : Net) :
  foldl absorb n (effects (handleMessage message b)) = n.
Proof.
  rewrite handleMessage_run. simpl. rewrite foldl_app.
  assert (foldl absorb n (effects (handleMessage_body message b)) = n) as ->.
  { destruct (body_routed message b); simpl; try reflexivity. by apply action_trace_absorb. }
  by destruct (completion _).
Qed.

(** What the host learns from the building's reaction to an event. *)
Lemma step_absorb (e : event) (b : SmartBuilding) (n : Net) :
  foldl absorb n (effects (step e b)) =
    match e with
    | CallRun sock | TimerFires _ sock =>
        MkNet (<[sock := Connecting]> (phases n)) (pending n) (started n)
    | SocketClose _ => MkNet (phases n) (S (pending n)) (started n)
    | _ => n
    end.
Proof.
  destruct e as [config handler|name l|sock|sock|sock text|sock|sock error|[] sock];
    simpl; try reflexivity.
  - rewrite on_open_run. simpl. by destruct (ws b).
  - apply handleMessage_absorb.
  - rewrite on_error_run. simpl. by destruct (ws b).
Qed.

Lemma step_ws_connect (e : event) (b : SmartBuilding) :
  ws (final (step e b)) =
    match e with
    | CallRun sock | TimerFires _ sock => Some sock
    | _ => ws b
    end.
Proof.
  destruct e as [config handler|name l|sock|sock|sock text|sock|sock error|[] sock];
    try (by apply step_ws); reflexivity.
Qed.

Lemma live_insert (n : Net) (sock sock' : WebSocket) (p : phase) (k : nat) (s : bool) :
  live (MkNet (<[sock := p]> (phases n)) k s) sock' =
    if decide (sock = sock') then match p with Closed => false | _ => true end
    else live n sock'.
Proof.
  unfold live. simpl. rewrite lookup_insert. case_decide; [|reflexivity]. by destruct p.
Qed.

Lemma world_step_settled (e : event) (w w' : World) :
  settled w -> world_step e w = Some w' -> settled w'.
Proof.
  intros (Hlive & Hpending & Hstart). unfold world_step.
  destruct (enabled e (net w)) eqn:He; [|discriminate]. intros [= <-].
  unfold settled. simpl. rewrite step_absorb, step_ws_connect.
  destruct w as [b n]. simpl in *.
  destruct e as [config handler|name l|sock|sock|sock text|sock|sock error|cb sock];
    simpl in *.
  - done.
  - done.
  - apply andb_true_iff in He as [Hs Hun]. apply negb_true_iff in Hs.
    destruct (Hstart Hs) as [Hempty Hzero].
    split; [|split; [lia|done]].
    intros sock'. rewrite live_insert. case_decide as Heq; [by subst|].
    unfold live. rewrite Hempty, lookup_empty. done.
  - split; [|split; [done|]].
    + intros sock'. rewrite live_insert. case_decide as Heq.
      * subst sock'. intros _. apply Hlive. unfold live.
        by destruct (phases n !! sock) as [[]|].
      * apply Hlive.
    + intros Hs. destruct (Hstart Hs) as [Hempty _].
      rewrite Hempty, lookup_empty in He. done.
  - done.
  - destruct (Hlive sock He) as [Hws Hzero].
    split; [|split; [lia|]].
    + intros sock'. rewrite live_insert. case_decide as Heq; [done|].
      intros Hl. destruct (Hlive sock' Hl) as [Hws' _]. congruence.
    + intros Hs. destruct (Hstart Hs) as [Hempty _].
      unfold live in He. rewrite Hempty, lookup_empty in He. done.
  - done.
  - apply andb_true_iff in He as [Hp Hun]. apply Nat.ltb_lt in Hp.
    assert (pending n = 1) as Hone by lia.
    split; [|split; [rewrite Hone; simpl; lia|]].
    + intros sock'. rewrite live_insert. case_decide as Heq; [subst; by rewrite Hone|].
      intros Hl. destruct (Hlive sock' Hl) as [_ Hzero]. lia.
    + intros Hs. destruct (Hstart Hs) as [_ Hzero]. lia.
Qed.

Lemma play_settled (evs : list event) (w w' : World) :
  settled w -> play evs w = Some w' -> settled w'.
Proof.
  revert w. induction evs as [|e evs IH]; intros w Hw; simpl.
  - by intros [= <-].
  - destruct (world_step e w) as [w1|] eqn:Hstep; [|discriminate].
    apply IH. by apply (world_step_settled e w).
Qed.

Lemma genesis_settled (options : Options.t) : settled (genesis options).
Proof. split; [|split]; simpl; [done|lia|done]. Qed.

Lemma play_obj (evs : list event) (w w' : World) :
  play evs w = Some w' -> obj w' = exec evs (obj w).
Proof.
  revert w. induction evs as [|e evs IH]; intros w; simpl.
  - by intros [= <-].
  - destruct (world_step e w) as [w1|] eqn:Hstep; [|discriminate].
    intros Hplay. rewrite (IH _ Hplay).
    unfold world_step in Hstep. destruct (enabled e (net w)); [|discriminate].
    by injection Hstep as <-.
Qed.

(** When the caller starts the building once and the host keeps to its
    part, the socket that opens is the current connection, and the
    announcement goes out on it. *)
Lemma open_is_on_the_new_connection (options : Options.t) (evs : list event)
    (sock : WebSocket) (w w' : World) :
  play evs (genesis options) = Some w ->
  world_step (SocketOpen sock) w = Some w' ->
  obj w = exec evs (constructor options) /\
  ws (obj w) = Some sock /\
  sends (effects (step (SocketOpen sock) (obj w))) = [(sock, registerActionsMessage (obj w))].
Proof.
  intros Hplay Hstep.
  destruct (play_settled evs _ _ (genesis_settled options) Hplay) as (Hlive & _ & _).
  unfold world_step in Hstep.
  destruct (enabled (SocketOpen sock) (net w)) eqn:He; [|discriminate].
  assert (ws (obj w) = Some sock) as Hws.
  { apply Hlive. unfold live. simpl in He. by destruct (phases (net w) !! sock) as [[]|]. }
  split; [exact (play_obj _ _ _ Hplay)|].
  split; [exact Hws|]. simpl. rewrite on_open_run, Hws. reflexivity.
Qed.

(** *** What a frame can and cannot do *)

(** Whatever the frame and the state, [handleMessage] completes; it never
    sends, closes a socket, sets a timer or opens a connection; and it makes
    at most one of: a call of a handler, a notification, a warning. *)
Theorem router_footprint (message : string) (b : SmartBuilding) :
  let r := handleMessage message b in
  completion r = Ok tt /\
  sends (effects r) = [] /\
  closes (effects r) = [] /\
  timers (effects r) = [] /\
  sockets (effects r) = [] /\
  length (invocations (effects r)) + length (notifications (effects r))
    + length (warnings (effects r)) <= 1.
Proof.
  cbv zeta. rewrite handleMessage_run. cbn [completion effects].
  unfold sends, closes, timers, sockets, invocations, notifications, warnings.
  rewrite !omap_app.
  assert (forall A (f : effect -> option A) (r : result unit),
             (forall text e, f (ConsoleError text e) = None) -> omap f (caught r) = [])
    as Hcaught.
  { intros A f [u|e] Hf; simpl; [reflexivity|]. by rewrite Hf. }
  rewrite !Hcaught by reflexivity. rewrite !app_nil_r.
  destruct (body_routed message b) as [| | |msg r Hp Ht Hfin Htrace|]; simpl;
    try (repeat split; lia).
  destruct Htrace; simpl; repeat split; lia.
Qed.

(** An [action] frame without [data] (absent, or null) fails on the read of
    [data.action]: the catch clause logs the TypeError, and nothing else
    happens. *)
Theorem action_without_data_is_an_error (message : string) (msg : value)
    (b : SmartBuilding) :
  JSON_parse message = Some msg ->
  Get msg "type" = Ok (VString "action") ->
  nullish (field msg "data") = true ->
  handleMessage message b =
    MkRun (Ok tt) b [ConsoleError "Failed to handle message:" TypeError].
Proof.
  intros Hp [_ Ht]%Get_Ok Hn.
  rewrite handleMessage_run. cbv zeta.
  rewrite (body_action _ _ _ Hp (eq_sym Ht)), Hn. reflexivity.
Qed.

(** An [action] frame whose [data] has no [action] is a request for the name
    "undefined": with no such registration it is dropped with the warning
    for that name, and a handler registered under that name is the one it
    reaches. *)
Theorem action_without_name_is_undefined (message : string) (msg data : value)
    (b : SmartBuilding) :
  JSON_parse message = Some msg ->
  Get msg "type" = Ok (VString "action") ->
  Get msg "data" = Ok data ->
  Get data "action" = Ok VUndefined ->
  (own (actionHandlers b) !! "undefined" = None ->
   proto (actionHandlers b) = None ->
   handleMessage message b =
     MkRun (Ok tt) b [ConsoleWarn "No handler for action 'undefined'"]) /\
  (forall h : ActionHandler,
     own (actionHandlers b) !! "undefined" = Some h ->
     fn_length (func h) = 2 ->
     invocations (effects (handleMessage message b)) =
       [(func h,
         MkContext (field data "playerID") (field data "playerName") (ws b)
                   (field data "actionID") VUndefined,
         [field data "payload"])]).
Proof.
  intros Hp Ht Hd Ha.
  assert (handleMessage_body message b = dispatch data VUndefined "undefined" b) as Hbody.
  { by apply (body_action_key message msg data VUndefined "undefined" b). }
  split.
  - intros Hown Hproto. rewrite handleMessage_run. cbv zeta. rewrite Hbody.
    unfold dispatch. rewrite lookup_handler_undefined; try assumption; try done.
    apply (bool_decide_unpack _). vm_compute. exact I.
  - intros h Hown Hlen. rewrite handleMessage_run. cbv zeta. rewrite Hbody.
    rewrite (dispatch_handler data VUndefined "undefined" h b (lookup_handler_own _ _ _ Hown)).
    rewrite Hlen. simpl. rewrite invoke_run. simpl.
    by destruct (fn_call (func h) _ _).
Qed.

(** *** Snapshots over a stream of frames *)

Lemma other_frame_keeps (s : snapshot) (message : string) (b : SmartBuilding) :
  carries s message = false ->
  cached s (final (handleMessage message b)) = cached s b.
Proof.
  intros Hc.
  destruct (handleMessage_final message b) as [->|(s' & msg & Hp & Ht & ->)]; [reflexivity|].
  unfold carries in Hc. rewrite Hp, Ht in Hc.
  destruct s, s'; simpl in Hc; try discriminate; reflexivity.
Qed.

Lemma other_frames_keep (s : snapshot) (sock : WebSocket) (frames : list string)
    (b : SmartBuilding) :
  Forall (fun m => carries s m = false) frames ->
  cached s (exec (deliveries sock frames) b) = cached s b.
Proof.
  revert b. induction frames as [|m frames IH]; intros b Hall; [reflexivity|].
  apply Forall_cons in Hall as [Hm Hall].
  unfold deliveries. cbn [map exec]. fold (deliveries sock frames).
  rewrite IH by assumption. by apply other_frame_keeps.
Qed.

(** Over any stream of frames, well-formed or not, the cached BuildingInfo
    (PlayerRoster) is the data of the last [building] ([players]) frame of
    the stream; a stream without such a frame leaves it as it was. *)
Theorem last_push_is_cached (s : snapshot) (sock : WebSocket)
    (before after : list string) (message : string) (msg : value) (b : SmartBuilding) :
  JSON_parse message = Some msg ->
  Get msg "type" = Ok (VString (type_name s)) ->
  Forall (fun m => carries s m = false) after ->
  cached s (exec (deliveries sock (before ++ message :: after)) b) = field msg "data" /\
  cached s (exec (deliveries sock after) b) = cached s b.
Proof.
  intros Hp Ht Hafter. split; [|by apply other_frames_keep].
  unfold deliveries. rewrite map_app, exec_app. cbn [map exec].
  fold (deliveries sock after). rewrite other_frames_keep by assumption.
  change (step (SocketMessage sock message) ?b0) with (handleMessage message b0).
  by destruct (snapshot_replaces_cache_aux s message msg
                 (exec (map (SocketMessage sock) before) b) Hp Ht) as (Hc & _).
Qed.

(** *** The connection manager over a history *)

Lemma step_configuration (e : event) (b : SmartBuilding) :
  configuration (final (step e b)) = configuration b.
Proof.
  destruct e as [config handler|name l|sock|sock|sock text|sock|sock error|[] sock];
    simpl; try reflexivity.
  - rewrite on_open_run. reflexivity.
  - unfold on_message.
    destruct (handleMessage_final text b) as [->|(s & msg & _ & _ & ->)];
      [|destruct s]; reflexivity.
  - rewrite on_error_run. reflexivity.
Qed.

Lemma exec_configuration (evs : list event) (b : SmartBuilding) :
  configuration (exec evs b) = configuration b.
Proof.
  revert b. induction evs as [|e evs IH]; intros b; simpl; [reflexivity|].
  rewrite IH. apply step_configuration.
Qed.

(** Nothing that happens to a building changes what it was constructed
    with, so every connection it opens, the first and each reconnection, is
    to the same address: the configured (or default) endpoint with the
    building type, the API key and the building id as query parameters. *)
Theorem every_connection_has_the_same_address (options : Options.t) (evs : list event)
    (sock : WebSocket) :
  let b := exec evs (constructor options) in
  let endpoint := or_else truthy_string (Options.wsEndpoint options) DEFAULT_WS_ENDPOINT in
  let uri := endpoint +:+ "?type=building&api-key=" +:+ Options.apiKey options
               +:+ "&building-id=" +:+ Number_toString (Options.buildingId options) in
  apiKey b = Options.apiKey options /\
  buildingId b = Options.buildingId options /\
  wsEndpoint b = endpoint /\
  reconnectInterval b =
    or_else truthy_number (Options.reconnectInterval options) 5000%float /\
  effects (step (CallRun sock) b) = [NewWebSocket sock uri] /\
  effects (step (TimerFires CallConnect sock) b) = [NewWebSocket sock uri].
Proof.
  intros b endpoint uri.
  pose proof (exec_configuration evs (constructor options)) as Hc.
  fold b in Hc. unfold configuration in Hc. simpl in Hc.
  injection Hc as Hkey Hid Hend Hint.
  repeat split; try assumption.
  - change (step (CallRun sock) b) with (connect sock b).
    rewrite connect_run, Hkey, Hid, Hend. reflexivity.
  - change (step (TimerFires CallConnect sock) b) with (connect sock b).
    rewrite connect_run, Hkey, Hid, Hend. reflexivity.
Qed.

Lemma handleMessage_transport (message : string) (b : SmartBuilding) :
  closes (effects (handleMessage message b)) = [] /\
  timers (effects (handleMessage message b)) = [].
Proof.
  rewrite handleMessage_run. cbn [effects].
  unfold closes, timers. rewrite !omap_app.
  assert (forall A (f : effect -> option A) (r : result unit),
             (forall text e, f (ConsoleError text e) = None) -> omap f (caught r) = [])
    as Hcaught.
  { intros A f [u|e] Hf; simpl; [reflexivity|]. by rewrite Hf. }
  rewrite !Hcaught by reflexivity. rewrite !app_nil_r.
  destruct (body_routed message b) as [| | |msg r Hp Ht Hfin Htrace|]; simpl; try done.
  by destruct Htrace.
Qed.

(** Where timers and closings come from: a timer is set by the close
    listener, one per close event, with the configured interval, and by
    nothing else; a socket is closed by the error listener, which closes the
    current connection, if there is one, and by nothing else.  An error by
    itself schedules no reconnection. *)
Theorem reconnect_only_through_close (e : event) (b : SmartBuilding) :
  timers (effects (step e b)) =
    match e with
    | SocketClose _ => [(CallConnect, reconnectInterval b)]
    | _ => []
    end /\
  closes (effects (step e b)) =
    match e with
    | SocketError _ _ => match ws b with Some sock => [sock] | None => [] end
    | _ => []
    end.
Proof.
  destruct e as [config handler|name l|sock|sock|sock text|sock|sock error|[] sock];
    simpl; try (split; reflexivity).
  - rewrite on_open_run. simpl. by destruct (ws b).
  - unfold on_message. destruct (handleMessage_transport text b). by split.
  - rewrite on_error_run. simpl. by destruct (ws b).
Qed.

(** [run()] called a second time creates a second socket and makes it the
    current connection; from then on the events of the first socket act on
    the second: its opening sends the announcement there, an error of it
    closes the second. *)
Theorem second_run_takes_over (b : SmartBuilding) (first second : WebSocket) (error : exn) :
  let b1 := final (step (CallRun first) b) in
  let b2 := final (step (CallRun second) b1) in
  sockets (effects (step (CallRun first) b)) = [first] /\
  sockets (effects (step (CallRun second) b1)) = [second] /\
  ws b1 = Some first /\
  ws b2 = Some second /\
  actionHandlers b2 = actionHandlers b /\
  sends (effects (step (SocketOpen first) b2)) = [(second, registerActionsMessage b2)] /\
  closes (effects (step (SocketError first error) b2)) = [second].
Proof.
  cbv zeta.
  change (step (CallRun first) b) with (connect first b).
  change (step (CallRun second) ?b0) with (connect second b0).
  rewrite !connect_run. cbn [final effects].
  split; [reflexivity|]. split; [reflexivity|]. split; [reflexivity|].
  split; [reflexivity|]. split; [reflexivity|]. split.
  - cbn [step]. rewrite on_open_run. reflexivity.
  - cbn [step]. rewrite on_error_run. reflexivity.
Qed.

(** *** Listeners of the notifications *)

Lemma listeners_result_app (ls : list Listener) (l : Listener) (args : list value) :
  listeners_result (ls ++ [l]) args =
    match listeners_result ls args with
    | Ok _ => match l args with Returns => Ok tt | Throws e => Err e end
    | Err e => Err e
    end.
Proof.
  induction ls as [|l0 ls IH]; simpl.
  - by destruct (l args).
  - destruct (l0 args); [exact IH|reflexivity].
Qed.

Lemma listeners_of_on (name : string) (l : Listener) (b : SmartBuilding) :
  listeners_of name (final (on name l b)) = listeners_of name b ++ [l].
Proof.
  unfold on, assign, listeners_of. simpl. by rewrite lookup_insert_eq.
Qed.

(** The open listener has no catch clause: when a listener attached to
    [ready] throws, the exception leaves the open listener, after the
    announcement has gone out; attached to [buildingInfo] or [players], the
    same listener cannot make the message listener throw. *)
Theorem ready_listener_can_break_open (b : SmartBuilding) (sock : WebSocket)
    (l : Listener) (e : exn) :
  ws b = Some sock ->
  listeners_result (listeners_of "ready" b) [] = Ok tt ->
  l [] = Throws e ->
  let b' := final (step (CallOn "ready" l) b) in
  step (SocketOpen sock) b' =
    MkRun (Err e) b'
          [ConsoleLog "WebSocket connection established.";
           Send sock (registerActionsMessage b');
           Emit "ready" []] /\
  completion (step (SocketOpen sock) b) = Ok tt /\
  (forall (s : snapshot) (message : string),
     completion (step (SocketMessage sock message)
                      (final (step (CallOn (event_name s) l) b))) = Ok tt).
Proof.
  intros Hws Hready Hl b'. split; [|split].
  - subst b'. change (step (CallOn "ready" l) b) with (on "ready" l b).
    change (step (SocketOpen sock) ?b0) with (on_open b0).
    rewrite on_open_run, listeners_of_on, listeners_result_app, Hready, Hl.
    assert (ws (final (on "ready" l b)) = Some sock) as -> by exact Hws.
    reflexivity.
  - change (step (SocketOpen sock) b) with (on_open b).
    rewrite on_open_run, Hready. reflexivity.
  - intros s message.
    change (step (SocketMessage sock message) ?b0) with (handleMessage message b0).
    by rewrite handleMessage_run.
Qed.

(** *** Invariants of the building with its host *)

Lemma world_step_started (e : event) (w w' : World) :
  world_step e w = Some w' ->
  started (net w') = match e with CallRun _ => true | _ => started (net w) end.
Proof.
  unfold world_step. destruct (enabled e (net w)); [|discriminate]. intros [= <-].
  simpl. rewrite step_absorb.
  by destruct e as [config handler|name l|sock|sock|sock text|sock|sock error|cb sock].
Qed.

Lemma play_started (evs : list event) (w w' : World) :
  play evs w = Some w' ->
  started (net w) = true \/ (exists sock, CallRun sock ∈ evs) ->
  started (net w') = true.
Proof.
  revert w. induction evs as [|e evs IH]; intros w; simpl.
  - intros [= <-] [Hs|[sock Hin]]; [exact Hs|by apply elem_of_nil in Hin].
  - destruct (world_step e w) as [w1|] eqn:Hstep; [|discriminate].
    intros Hplay Hcause. apply (IH w1 Hplay).
    rewrite (world_step_started e w w1 Hstep).
    destruct Hcause as [Hs|[sock Hin]].
    + left. by destruct e.
    + apply elem_of_cons in Hin as [<-|Hin]; [by left|right; eauto].
Qed.

Lemma world_step_attended (e : event) (w w' : World) :
  settled w -> attended (net w) -> world_step e w = Some w' -> attended (net w').
Proof.
  intros (Hlive & _ & _) Hatt Hstep.
  unfold world_step in Hstep.
  destruct (enabled e (net w)) eqn:He; [|discriminate]. injection Hstep as <-.
  unfold attended in *. simpl in *. rewrite step_absorb.
  destruct w as [b n]. simpl in *.
  destruct e as [config handler|name l|sock|sock|sock text|sock|sock error|cb sock];
    simpl in *; try exact Hatt; intros _.
  - left. exists sock. by rewrite live_insert, decide_True.
  - left. exists sock. by rewrite live_insert, decide_True.
  - right. destruct (Hlive sock He) as [_ ->]. reflexivity.
  - left. exists sock. by rewrite live_insert, decide_True.
Qed.

Lemma play_attended (evs : list event) (w w' : World) :
  settled w -> attended (net w) -> play evs w = Some w' -> attended (net w').
Proof.
  revert w. induction evs as [|e evs IH]; intros w Hw Hatt; simpl.
  - by intros [= <-].
  - destruct (world_step e w) as [w1|] eqn:Hstep; [|discriminate].
    apply IH; [by apply (world_step_settled e w)|by apply (world_step_attended e w)].
Qed.

(** When the caller starts the building once and the host keeps to its
    part, at most one socket is not closed at any time, and it is the
    current connection; at most one reconnect timer is set, and none while a
    socket is not closed. *)
Theorem one_connection_at_a_time (options : Options.t) (evs : list event) (w : World) :
  play evs (genesis options) = Some w ->
  (forall first second,
     live (net w) first = true -> live (net w) second = true -> first = second) /\
  (forall sock, live (net w) sock = true -> ws (obj w) = Some sock) /\
  (forall sock, live (net w) sock = true -> pending (net w) = 0) /\
  pending (net w) <= 1.
Proof.
  intros Hplay.
  destruct (play_settled evs _ _ (genesis_settled options) Hplay) as (Hlive & Hpending & _).
  repeat split.
  - intros first second H1 H2.
    destruct (Hlive first H1) as [Hw1 _]. destruct (Hlive second H2) as [Hw2 _]. congruence.
  - intros sock H. by destruct (Hlive sock H).
  - intros sock H. by destruct (Hlive sock H).
  - exact Hpending.
Qed.

(** Once [run()] has been called, the building never gives up: at every
    moment it has a connection that is not closed, or, all sockets being
    closed, a timer that will open the next one.  There is no state from
    which no reconnection comes. *)
Theorem never_unattended (options : Options.t) (evs : list event) (sock0 : WebSocket)
    (w : World) :
  play evs (genesis options) = Some w ->
  CallRun sock0 ∈ evs ->
  (exists sock, live (net w) sock = true /\ ws (obj w) = Some sock) \/
  (pending (net w) = 1 /\ forall sock, live (net w) sock = false).
Proof.
  intros Hplay Hrun.
  pose proof (play_settled evs _ _ (genesis_settled options) Hplay) as (Hlive & _ & _).
  assert (attended (net w)) as Hatt.
  { apply (play_attended evs (genesis options)); [apply genesis_settled| |assumption].
    intros Hs. discriminate Hs. }
  assert (started (net w) = true) as Hs.
  { apply (play_started evs (genesis options)); [assumption|right; eauto]. }
  destruct (Hatt Hs) as [[sock Hsock]|Hp].
  - left. exists sock. split; [assumption|]. by destruct (Hlive sock Hsock).
  - right. split; [assumption|]. intros sock.
    destruct (live (net w) sock) eqn:Hl; [|reflexivity].
    destruct (Hlive sock Hl) as [_ Hzero]. lia.
Qed.

(** *** Registration and dispatch together *)

(** An action registered at any moment, connected or not, is sent to nobody
    by the registration, and is what the next request for its name reaches,
    whatever was registered under the name before: a handler that declares
    two parameters is called with the request's context and payload, one
    that declares three with the payment as well, and one that declares any
    other number is not called, a warning being logged instead. *)
Theorem register_then_dispatch (b : SmartBuilding) (config : Config.t)
    (handler : JSFunction) (message : string) (msg data actionName : value) :
  reachable b ->
  JSON_parse message = Some msg ->
  Get msg "type" = Ok (VString "action") ->
  Get msg "data" = Ok data ->
  Get data "action" = Ok actionName ->
  ToPropertyKey actionName = Ok (Config.action config) ->
  let registering := step (CallAction config handler) b in
  let r := handleMessage message (final registering) in
  let ctx := MkContext (field data "playerID") (field data "playerName") (ws b)
                       (field data "actionID") actionName in
  effects registering = [] /\
  invocations (effects r) =
    (if Nat.eqb (fn_length handler) 2 then
       [(handler, ctx, [field data "payload"])]
     else if Nat.eqb (fn_length handler) 3 then
       [(handler, ctx, [field data "payload"; field data "payment"])]
     else []) /\
  warnings (effects r) =
    (if Nat.eqb (fn_length handler) 2 then []
     else if Nat.eqb (fn_length handler) 3 then []
     else ["Handler for action '" +:+ Config.action config
             +:+ "' has an unexpected number of parameters"]).
Proof.
  intros Hr Hp Ht Hd Ha Hk registering r ctx.
  split; [reflexivity|].
  subst r registering.
  change (step (CallAction config handler) b) with (action config handler b).
  pose proof (lookup_handler_registered config handler b (reachable_no_own_proto b Hr)) as Hl.
  rewrite handleMessage_run. cbv zeta.
  rewrite (body_action_key _ _ _ _ _ _ Hp Ht Hd Ha Hk), (dispatch_handler _ _ _ _ _ Hl).
  assert (ws (final (action config handler b)) = ws b) as -> by reflexivity.
  fold ctx. cbn [func registered].
  destruct (Nat.eqb (fn_length handler) 2); [|destruct (Nat.eqb (fn_length handler) 3)].
  - simpl. rewrite invoke_run. simpl. by destruct (fn_call handler ctx _).
  - simpl. rewrite invoke_run. simpl. by destruct (fn_call handler ctx _).
  - split; reflexivity.
Qed.

Lemma exec_unregistered (evs : list event) (b : SmartBuilding) :
  forallb (fun e => negb (registers e)) evs = true ->
  actionHandlers (exec evs b) = actionHandlers b.
Proof.
  revert b. induction evs as [|e evs IH]; intros b; simpl; [reflexivity|].
  intros [He Hevs]%andb_true_iff. rewrite IH by assumption.
  destruct (step_actionHandlers e b) as [->|(config & handler & ->)]; [reflexivity|].
  discriminate He.
Qed.

(** A building on which no action was registered announces the empty
    mapping: whatever else happened to it, the message it sends when a
    connection opens is [registerActions] with no action in it. *)
Theorem unregistered_building_announces_nothing (options : Options.t)
    (evs : list event) (sock : WebSocket) :
  forallb (fun e => negb (registers e)) evs = true ->
  let b := exec evs (constructor options) in
  actionHandlers b = empty_object /\
  registerActionsMessage b =
    {| out_type := "registerActions"; out_actions := empty_object |} /\
  (ws b = Some sock ->
   sends (effects (step (SocketOpen sock) b)) =
     [(sock, {| out_type := "registerActions"; out_actions := empty_object |})]).
Proof.
  intros Hevs b.
  assert (actionHandlers b = empty_object) as Hempty.
  { subst b. by rewrite exec_unregistered. }
  assert (registerActionsMessage b =
            {| out_type := "registerActions"; out_actions := empty_object |}) as Hmsg.
  { unfold registerActionsMessage, Object_keys. rewrite Hempty. simpl.
    by rewrite map_to_list_empty. }
  split; [exact Hempty|]. split; [exact Hmsg|].
  intros Hws. change (step (SocketOpen sock) b) with (on_open b).
  rewrite on_open_run, Hws, Hmsg. reflexivity.
Qed.

Lemma set_cached_twice (s : snapshot) (v : value) (b : SmartBuilding) :
  set_cached s v (set_cached s v b) = set_cached s v b.
Proof. by destruct s. Qed.

(** A frame delivered twice in a row leaves the object as one delivery
    does: whatever the frame, the second delivery changes nothing. *)
Theorem redelivery_changes_nothing (message : string) (b : SmartBuilding) :
  final (handleMessage message (final (handleMessage message b))) =
    final (handleMessage message b).
Proof.
  destruct (handleMessage_final message b) as [Hsame|(s & msg & Hp & Ht & Hset)].
  - by rewrite !Hsame.
  - rewrite Hset.
    assert (Get msg "type" = Ok (VString (type_name s))) as Hget.
    { unfold Get. destruct msg; try discriminate; by rewrite <- Ht. }
    destruct (snapshot_replaces_cache_aux s message msg
                (set_cached s (field msg "data") b) Hp Hget) as (_ & -> & _).
    apply set_cached_twice.
Qed.

End Facts.

(** ** The properties at work on the sample building *)

Section Examples.
#[local] Existing Instance Sample.host.
#[local] Existing Instance Sample.consts.

(** C1 fails as stated: a handler with one declared parameter, registered
    for the requested action, is not called at all; the request ends with the
    warning about the number of parameters. *)
Lemma one_parameter_handler_is_not_called :
  lookup_handler "ping" (actionHandlers Sample.building) =
    SlotHandler (registered Sample.ping_config Sample.ping) /\
  fn_length Sample.ping = 1 /\
  JSON_parse (Sample.frame Sample.ping_request) = Some Sample.ping_request /\
  invocations (effects (handleMessage (Sample.frame Sample.ping_request) Sample.building)) = [] /\
  effects (handleMessage (Sample.frame Sample.ping_request) Sample.building) =
    [ConsoleWarn "Handler for action 'ping' has an unexpected number of parameters"].
Proof. vm_compute. repeat split. Qed.

Lemma handler_called_by_declared_arity_witness :
  JSON_parse (Sample.frame Sample.purchase_request) = Some Sample.purchase_request /\
  lookup_handler "purchase" (actionHandlers Sample.building) =
    SlotHandler (registered Sample.purchase_config Sample.purchase) /\
  invocations (effects (handleMessage (Sample.frame Sample.purchase_request) Sample.building)) =
    [(Sample.purchase, Sample.context "purchase",
      [VObject [("content", VString "hi")]; VNumber 1])].
Proof.
  split; [reflexivity|]. split; [vm_compute; reflexivity|].
  pose proof (handler_called_by_declared_arity
                (Sample.frame Sample.purchase_request) Sample.purchase_request
                (field Sample.purchase_request "data") (VString "purchase") "purchase"
                (registered Sample.purchase_config Sample.purchase) Sample.building
                eq_refl eq_refl eq_refl eq_refl eq_refl eq_refl)
    as (_ & Hthree & _).
  exact (proj1 (Hthree eq_refl)).
Defined.

(** The building of [Edge.shadowed]: a request for [__proto__] reaches the
    registered handler, and the announcement names [ping] alone. *)
Lemma open_announces_all_but_proto_witness :
  ws (exec Edge.shadowed (constructor Sample.options)) = Some 1 /\
  lookup_handler "__proto__" (actionHandlers (exec Edge.shadowed (constructor Sample.options))) =
    SlotHandler (registered Edge.proto_config Sample.echo) /\
  exists m : OutMessage,
    sends (effects (step (SocketOpen 1) (exec Edge.shadowed (constructor Sample.options)))) =
      [(1, m)] /\
    own (out_actions m) !! "__proto__" = None /\
    own (out_actions m) =
      {[ "ping" := {| payload := EmptyString; payment := EmptyString |} ]}.
Proof.
  destruct (open_announces_all_but_proto Sample.options Edge.shadowed 1 eq_refl)
    as (m & Hsend & _ & Hregistry & Hown & _).
  split; [reflexivity|]. split.
  - apply Hregistry. vm_compute. reflexivity.
  - exists m. split; [exact Hsend|]. rewrite Hown. split.
    + rewrite lookup_fmap, lookup_delete_eq. reflexivity.
    + vm_compute. reflexivity.
Defined.

(** C3 fails on the code for the name [__proto__]: registered twice, the
    second registration is the handler a request for it reaches, and yet the
    registry has no key and the next announcement no entry for it. *)
Theorem proto_registration_is_not_announced :
  let first := Config.Make "__proto__" (Some "old") None in
  let second := Config.Make "__proto__" (Some "new") (Some "1") in
  let b := exec (registrations [(first, Sample.ping); (second, Sample.echo)])
                (constructor Sample.options) in
  lookup_handler "__proto__" (actionHandlers b) = SlotHandler (registered second Sample.echo) /\
  Object_keys (actionHandlers b) = [] /\
  own (out_actions (registerActionsMessage b)) !! "__proto__" = None /\
  sends (effects (on_open (final (run 1 b)))) =
    [(1, {| out_type := "registerActions"; out_actions := empty_object |})].
Proof. vm_compute. repeat split. Qed.

Lemma failed_frame_is_dropped_witness :
  completion (handleMessage_body Sample.garbage Sample.building) = Err SyntaxError /\
  JSON_parse (Sample.frame Sample.players_push) = Some Sample.players_push /\
  final (handleMessage Sample.garbage Sample.building) = Sample.building /\
  players (final (handleMessage (Sample.frame Sample.players_push)
                    (final (handleMessage Sample.garbage Sample.building)))) =
    VArray [VObject [("id", VNumber 1); ("name", VString "A")]].
Proof.
  assert (completion (handleMessage_body Sample.garbage Sample.building) = Err SyntaxError)
    as Hfail by reflexivity.
  assert (JSON_parse (Sample.frame Sample.players_push) = Some Sample.players_push)
    as Hnext by reflexivity.
  split; [exact Hfail|]. split; [exact Hnext|].
  destruct (failed_frame_is_dropped Sample.garbage SyntaxError Sample.building
              (Sample.frame Sample.players_push) Sample.players_push Hfail Hnext eq_refl)
    as (_ & _ & _ & _ & Hnone & _ & _ & Hplayers & _).
  split; [apply Hnone; reflexivity|exact Hplayers].
Defined.

(** C4 fails as stated: a [building] frame whose handling throws, because a
    listener of the notification does, has replaced the cached BuildingInfo
    all the same. *)
Lemma throwing_listener_keeps_the_update :
  completion (handleMessage_body (Sample.frame Sample.building_push) Sample.guarded) =
    Err (Thrown (VString "refused")) /\
  buildingInfo Sample.guarded = VObject [] /\
  buildingInfo (final (handleMessage (Sample.frame Sample.building_push) Sample.guarded)) =
    VObject [("name", VString "Tower"); ("floors", VNumber 3)] /\
  effects (handleMessage (Sample.frame Sample.building_push) Sample.guarded) =
    [Emit "buildingInfo" [VObject [("name", VString "Tower"); ("floors", VNumber 3)]];
     ConsoleError "Failed to handle message:" (Thrown (VString "refused"))].
Proof. vm_compute. repeat split. Qed.

(** C5 fails on the code for a name that [Object.prototype] defines: on a
    building with no action registered, a request for [toString] finds the
    inherited method, takes it for a handler and fails on its missing
    [func]; the catch clause logs a TypeError and no "No handler" warning is
    logged. *)
Theorem inherited_name_is_taken_for_a_handler :
  let b := final (run 1 (constructor Sample.options)) in
  JSON_parse (Sample.frame Sample.toString_request) = Some Sample.toString_request /\
  own (actionHandlers b) = ∅ /\
  completion (handleMessage_body (Sample.frame Sample.toString_request) b) = Err TypeError /\
  effects (handleMessage (Sample.frame Sample.toString_request) b) =
    [ConsoleError "Failed to handle message:" TypeError] /\
  warnings (effects (handleMessage (Sample.frame Sample.toString_request) b)) = [].
Proof. vm_compute. repeat split. Qed.

Lemma snapshot_replaces_cache_witness :
  JSON_parse (Sample.frame Sample.building_push) = Some Sample.building_push /\
  Get Sample.building_push "type" = Ok (VString (type_name Building)) /\
  buildingInfo (final (handleMessage (Sample.frame Sample.building_push) Sample.building)) =
    VObject [("name", VString "Tower"); ("floors", VNumber 3)] /\
  notifications (effects (handleMessage (Sample.frame Sample.building_push) Sample.building)) =
    [("buildingInfo", [VObject [("name", VString "Tower"); ("floors", VNumber 3)]])].
Proof.
  assert (JSON_parse (Sample.frame Sample.building_push) = Some Sample.building_push)
    as Hparse by reflexivity.
  assert (Get Sample.building_push "type" = Ok (VString (type_name Building)))
    as Htype by reflexivity.
  split; [exact Hparse|]. split; [exact Htype|].
  destruct (snapshot_replaces_cache Building (Sample.frame Sample.building_push)
              Sample.building_push Sample.building Hparse Htype) as (Hc & _ & Hn).
  split; [exact Hc|]. rewrite Hn, Hc. reflexivity.
Defined.


Lemma constructor_defaults_witness :
  truthy_number nan = false /\
  truthy_number (-0)%float = false /\
  truthy_string EmptyString = false /\
  constructor (Options.Make "KEY" 7%float (Some EmptyString) (Some nan)) =
    constructor Sample.options /\
  reconnectInterval (constructor (Options.Make "KEY" 7%float None (Some (-0)%float))) =
    5000%float /\
  reconnectInterval (constructor (Options.Make "KEY" 7%float None (Some 250%float))) =
    250%float /\
  ws (exec [CallAction Sample.echo_config Sample.echo; CallOn "ready" Sample.refuse]
           (constructor Sample.options)) = None.
Proof.
  destruct (constructor_defaults "KEY" 7%float (Some EmptyString) (Some nan))
    as (Hnumber & _).
  destruct (constructor_defaults "KEY" 7%float (Some EmptyString) None)
    as (_ & Hstring & _).
  destruct (constructor_defaults "KEY" 7%float None None)
    as (Hnumber' & _ & _ & _ & _ & _ & _ & _ & _ & _ & _ & _ & _ & Hidle & _).
  split; [reflexivity|]. split; [reflexivity|]. split; [reflexivity|].
  split; [rewrite (Hnumber nan eq_refl); exact (Hstring EmptyString eq_refl)|].
  split; [rewrite (Hnumber' (-0)%float eq_refl); reflexivity|].
  split; [reflexivity|].
  exact (Hidle [CallAction Sample.echo_config Sample.echo; CallOn "ready" Sample.refuse]
                eq_refl).
Defined.

Lemma unknown_type_is_ignored_witness :
  JSON_parse (Sample.frame Sample.chat_push) = Some Sample.chat_push /\
  final (handleMessage (Sample.frame Sample.chat_push) Sample.building) = Sample.building.
Proof.
  assert (JSON_parse (Sample.frame Sample.chat_push) = Some Sample.chat_push)
    as Hparse by reflexivity.
  split; [exact Hparse|].
  apply (unknown_type_is_ignored (Sample.frame Sample.chat_push) Sample.chat_push Sample.building
           Hparse); simpl; discriminate.
Defined.

Lemma throwing_handler_is_contained_witness :
  lookup_handler "boom" (actionHandlers Sample.building) =
    SlotHandler (registered Sample.boom_config Sample.boom) /\
  fn_call Sample.boom (Sample.context "boom") [VObject [("content", VString "hi")]] =
    Throws (Thrown (VString "boom")) /\
  effects (handleMessage (Sample.frame Sample.boom_request) Sample.building) =
    [Invoke Sample.boom (Sample.context "boom") [VObject [("content", VString "hi")]];
     ConsoleError "Failed to handle message:" (Thrown (VString "boom"))] /\
  final (handleMessage (Sample.frame Sample.boom_request) Sample.building) = Sample.building.
Proof.
  split; [vm_compute; reflexivity|]. split; [reflexivity|].
  pose proof (throwing_handler_is_contained
                (Sample.frame Sample.boom_request) Sample.boom_request
                (field Sample.boom_request "data") (VString "boom") "boom"
                (registered Sample.boom_config Sample.boom) Sample.building
                (Thrown (VString "boom"))
                eq_refl eq_refl eq_refl eq_refl eq_refl eq_refl
                (or_introl eq_refl) eq_refl)
    as (_ & Heff & Hfin & _).
  split; [exact Heff|exact Hfin].
Defined.

Lemma open_is_on_the_new_connection_witness :
  let evs := [CallAction Sample.echo_config Sample.echo; CallRun 1; SocketClose 1;
              CallAction Sample.ping_config Sample.ping; TimerFires CallConnect 2] in
  let w := MkWorld (exec evs (constructor Sample.options))
                   (MkNet (<[2 := Connecting]> (<[1 := Closed]> ∅)) 0 true) in
  let w' := MkWorld (obj w) (MkNet (<[2 := Opened]> (<[1 := Closed]> ∅)) 0 true) in
  play evs (genesis Sample.options) = Some w /\
  world_step (SocketOpen 2) w = Some w' /\
  ws (obj w) = Some 2.
Proof.
  intros evs w w'.
  assert (play evs (genesis Sample.options) = Some w) as Hplay by (vm_compute; reflexivity).
  assert (world_step (SocketOpen 2) w = Some w') as Hstep by (vm_compute; reflexivity).
  split; [exact Hplay|]. split; [exact Hstep|].
  exact (proj1 (proj2 (open_is_on_the_new_connection Sample.options evs 2 w w' Hplay Hstep))).
Defined.

Lemma last_registration_wins_witness :
  let first := (Config.Make "echo" (Some "old") None, Sample.ping) in
  let other := (Config.Make "__proto__" None None, Sample.boom) in
  let b := exec (registrations [first; (Sample.echo_config, Sample.echo); other])
                Sample.building in
  lookup_handler "echo" (actionHandlers b) =
    SlotHandler (registered Sample.echo_config Sample.echo) /\
  own (out_actions (registerActionsMessage b)) !! "echo" =
    Some {| payload := "{content: string}"; payment := EmptyString |}.
Proof.
  intros first other b.
  assert (reachable Sample.building) as Hr.
  { exists Sample.options, Sample.history. reflexivity. }
  assert (Forall (fun r => Config.action r.1 <> Config.action Sample.echo_config) [other])
    as Hafter.
  { constructor; [simpl; discriminate|constructor]. }
  destruct (last_registration_wins Sample.building [first] [other]
              Sample.echo_config Sample.echo Hr Hafter) as [Hlookup Hannounced].
  split; [exact Hlookup|]. apply Hannounced. simpl. discriminate.
Defined.

Lemma unknown_action_is_dropped_witness :
  JSON_parse (Sample.frame Sample.dance_request) = Some Sample.dance_request /\
  own (actionHandlers Sample.building) !! "dance" = None /\
("dance" ∉ Object_prototype_names) /\
  handleMessage (Sample.frame Sample.dance_request) Sample.building =
    MkRun (Ok tt) Sample.building [ConsoleWarn "No handler for action 'dance'"].
Proof.
  assert (JSON_parse (Sample.frame Sample.dance_request) = Some Sample.dance_request)
    as Hparse by reflexivity.
  assert (own (actionHandlers Sample.building) !! "dance" = None)
    as Hown by (vm_compute; reflexivity).
  assert ("dance" ∉ Object_prototype_names) as Hnot.
  { apply (bool_decide_unpack _). vm_compute. exact I. }
  split; [exact Hparse|]. split; [exact Hown|]. split; [exact Hnot|].
  apply (unknown_action_is_dropped (Sample.frame Sample.dance_request) Sample.dance_request
           (field Sample.dance_request "data") (VString "dance") "dance" Sample.building
           Hparse); try reflexivity; try assumption.
  discriminate.
Defined.


End Examples.

(** ** The further properties at work *)

Section EdgeExamples.
#[local] Existing Instance Edge.host.
#[local] Existing Instance Sample.consts.

Lemma action_without_data_is_an_error_witness :
  JSON_parse (Sample.frame Edge.null_request) = Some Edge.null_request /\
  handleMessage (Sample.frame Edge.null_request) Edge.building =
    MkRun (Ok tt) Edge.building [ConsoleError "Failed to handle message:" TypeError] /\
  handleMessage (Sample.frame Edge.bare_request) Edge.building =
    MkRun (Ok tt) Edge.building [ConsoleError "Failed to handle message:" TypeError].
Proof.
  assert (JSON_parse (Sample.frame Edge.null_request) = Some Edge.null_request)
    as Hnull by reflexivity.
  assert (JSON_parse (Sample.frame Edge.bare_request) = Some Edge.bare_request)
    as Hbare by reflexivity.
  split; [exact Hnull|]. split.
  - exact (action_without_data_is_an_error _ _ Edge.building Hnull eq_refl eq_refl).
  - exact (action_without_data_is_an_error _ _ Edge.building Hbare eq_refl eq_refl).
Defined.

Lemma action_without_name_is_undefined_witness :
  JSON_parse (Sample.frame Edge.nameless_request) = Some Edge.nameless_request /\
  Get (field Edge.nameless_request "data") "action" = Ok VUndefined /\
  handleMessage (Sample.frame Edge.nameless_request) Edge.building =
    MkRun (Ok tt) Edge.building [ConsoleWarn "No handler for action 'undefined'"].
Proof.
  assert (JSON_parse (Sample.frame Edge.nameless_request) = Some Edge.nameless_request)
    as Hparse by reflexivity.
  assert (own (actionHandlers Edge.building) !! "undefined" = None)
    as Hown by (vm_compute; reflexivity).
  split; [exact Hparse|]. split; [reflexivity|].
  destruct (action_without_name_is_undefined (Sample.frame Edge.nameless_request)
              Edge.nameless_request (field Edge.nameless_request "data") Edge.building
              Hparse eq_refl eq_refl eq_refl) as [Hdropped _].
  exact (Hdropped Hown eq_refl).
Defined.

Lemma last_push_is_cached_witness :
  let before := [Sample.frame Sample.players_push; Sample.frame Edge.bare_request] in
  let after := [Sample.garbage; Sample.frame Sample.chat_push;
                Sample.frame Sample.players_push; Sample.frame Sample.echo_request] in
  JSON_parse (Sample.frame Sample.building_push) = Some Sample.building_push /\
  Forall (fun m => carries Building m = false) after /\
  buildingInfo (exec (deliveries 1 (before ++ Sample.frame Sample.building_push :: after))
                     Edge.building) =
    VObject [("name", VString "Tower"); ("floors", VNumber 3)].
Proof.
  intros before after.
  assert (JSON_parse (Sample.frame Sample.building_push) = Some Sample.building_push)
    as Hparse by reflexivity.
  assert (Forall (fun m => carries Building m = false) after) as Hafter.
  { repeat constructor. }
  split; [exact Hparse|]. split; [exact Hafter|].
  exact (proj1 (last_push_is_cached Building 1 before after
                  (Sample.frame Sample.building_push) Sample.building_push
                  Edge.building Hparse eq_refl Hafter)).
Defined.

Lemma ready_listener_can_break_open_witness :
  ws Edge.building = Some 1 /\
  Sample.refuse [] = Throws (Thrown (VString "refused")) /\
  completion (step (SocketOpen 1) (final (step (CallOn "ready" Sample.refuse) Edge.building))) =
    Err (Thrown (VString "refused")) /\
  completion (step (SocketOpen 1) Edge.building) = Ok tt.
Proof.
  assert (ws Edge.building = Some 1) as Hws by reflexivity.
  assert (listeners_result (listeners_of "ready" Edge.building) [] = Ok tt)
    as Hquiet by (vm_compute; reflexivity).
  split; [exact Hws|]. split; [reflexivity|].
  destruct (ready_listener_can_break_open Edge.building 1 Sample.refuse
              (Thrown (VString "refused")) Hws Hquiet eq_refl) as (Hopen & Hbefore & _).
  split; [|exact Hbefore]. rewrite Hopen. reflexivity.
Defined.

Lemma one_connection_at_a_time_witness :
  play Edge.reconnection (genesis Sample.options) = Some Edge.reconnected /\
  live (net Edge.reconnected) 2 = true /\
  ws (obj Edge.reconnected) = Some 2 /\
  pending (net Edge.reconnected) = 0.
Proof.
  assert (play Edge.reconnection (genesis Sample.options) = Some Edge.reconnected)
    as Hplay by (vm_compute; reflexivity).
  assert (live (net Edge.reconnected) 2 = true) as Hlive by (vm_compute; reflexivity).
  destruct (one_connection_at_a_time Sample.options Edge.reconnection Edge.reconnected Hplay)
    as (_ & Hcurrent & Hidle & _).
  split; [exact Hplay|]. split; [exact Hlive|].
  split; [exact (Hcurrent 2 Hlive)|exact (Hidle 2 Hlive)].
Defined.

Lemma never_unattended_witness :
  play Edge.interruption (genesis Sample.options) = Some Edge.interrupted /\
  CallRun 1 ∈ Edge.interruption /\
  ((exists sock, live (net Edge.interrupted) sock = true /\
                 ws (obj Edge.interrupted) = Some sock) \/
   (pending (net Edge.interrupted) = 1 /\
    forall sock, live (net Edge.interrupted) sock = false)).
Proof.
  assert (play Edge.interruption (genesis Sample.options) = Some Edge.interrupted)
    as Hplay by (vm_compute; reflexivity).
  assert (CallRun 1 ∈ Edge.interruption) as Hrun by apply list_elem_of_here.
  split; [exact Hplay|]. split; [exact Hrun|].
  exact (never_unattended Sample.options Edge.interruption 1 Edge.interrupted Hplay Hrun).
Defined.

Lemma register_then_dispatch_witness :
  reachable Edge.building /\
  JSON_parse (Sample.frame Edge.wave_request) = Some Edge.wave_request /\
  invocations (effects (handleMessage (Sample.frame Edge.wave_request) Edge.building)) = [] /\
  invocations
    (effects (handleMessage (Sample.frame Edge.wave_request)
                (final (step (CallAction Edge.wave_config Edge.wave) Edge.building)))) =
    [(Edge.wave, Sample.context "wave", [VObject [("content", VString "hi")]; VUndefined])] /\
  invocations
    (effects (handleMessage (Sample.frame Edge.wave_request)
                (final (step (CallAction Edge.wave_config Edge.nod) Edge.building)))) = [] /\
  warnings
    (effects (handleMessage (Sample.frame Edge.wave_request)
                (final (step (CallAction Edge.wave_config Edge.nod) Edge.building)))) =
    ["Handler for action 'wave' has an unexpected number of parameters"].
Proof.
  assert (reachable Edge.building) as Hr.
  { exists Sample.options, Sample.history. reflexivity. }
  assert (JSON_parse (Sample.frame Edge.wave_request) = Some Edge.wave_request)
    as Hparse by reflexivity.
  split; [exact Hr|]. split; [exact Hparse|]. split; [vm_compute; reflexivity|].
  pose proof (register_then_dispatch Edge.building Edge.wave_config Edge.wave
                (Sample.frame Edge.wave_request) Edge.wave_request
                (field Edge.wave_request "data") (VString "wave")
                Hr Hparse eq_refl eq_refl eq_refl eq_refl) as (_ & Hwave & _).
  pose proof (register_then_dispatch Edge.building Edge.wave_config Edge.nod
                (Sample.frame Edge.wave_request) Edge.wave_request
                (field Edge.wave_request "data") (VString "wave")
                Hr Hparse eq_refl eq_refl eq_refl eq_refl) as (_ & Hnod & Hwarn).
  split; [exact Hwave|]. split; [exact Hnod|exact Hwarn].
Defined.

Lemma unregistered_building_announces_nothing_witness :
  let evs := [CallOn "players" Sample.refuse; CallRun 1;
              SocketMessage 1 (Sample.frame Sample.players_push);
              SocketMessage 1 (Sample.frame Sample.echo_request)] in
  forallb (fun e => negb (registers e)) evs = true /\
  ws (exec evs (constructor Sample.options)) = Some 1 /\
  sends (effects (step (SocketOpen 1) (exec evs (constructor Sample.options)))) =
    [(1, {| out_type := "registerActions"; out_actions := empty_object |})].
Proof.
  intros evs.
  assert (forallb (fun e => negb (registers e)) evs = true) as Hevs by reflexivity.
  assert (ws (exec evs (constructor Sample.options)) = Some 1) as Hws
    by (vm_compute; reflexivity).
  split; [exact Hevs|]. split; [exact Hws|].
  destruct (unregistered_building_announces_nothing Sample.options evs 1 Hevs)
    as (_ & _ & Hsend).
  exact (Hsend Hws).
Defined.

End EdgeExamples.
